(** * DashboardHome: state synchronisation of the admin dashboard

    A shallow embedding of [src/pages/DashboardHome.tsx].  The React
    component keeps eight pieces of state ([useState]); its handlers are
    [async] functions that call the [api] collaborator (an axios instance),
    wait for the answer and then call state setters.

    The embedding is by explicit state passing.  A handler is a computation
    in the monad [M], which threads the component state and records every
    remote call that is issued.  An [async] handler is cut at its single
    [await]: the part before the [await] is [<handler>_request], the part
    that runs once the promise settles is [<handler>_resume], which takes the
    way the promise settled ([Outcome]) as an argument.  Because the second
    part is a function of the state it finds, statements about it hold for
    every interleaving of other events between request and answer.

    The metrics shown by the component are computed with JavaScript
    numbers; [Number] models their arithmetic (binary64, rounding to
    nearest) on integers, and the last part of the file relates it to exact
    arithmetic. *)

From Stdlib Require Import ZArith QArith Qpower String List Bool Lia Lqa.
From Stdlib Require Import DecimalString DecimalPos DecimalZ.
From Stdlib Require Import Uint63 PrimFloat SpecFloat FloatOps.
Import ListNotations.

Close Scope Q_scope.

Local Open Scope string_scope.
Local Open Scope Z_scope.

(* ================================================================== *)
(** ** JavaScript values used by the component *)

Module JS.

(** [s || d] for a string [s]: the empty string is falsy. *)
Definition or_else (s d : string) : string :=
  if String.eqb s "" then d else s.

(** [v || d] where [v] is a string or [undefined]. *)
Definition opt_or_else (v : option string) (d : string) : string :=
  match v with
  | Some s => or_else s d
  | None => d
  end.

(** The text a template literal gives for an integer-valued number. *)
Definition Number_toString (n : Z) : string :=
  NilZero.string_of_int (Z.to_int n).

(** A plain object whose values are arrays of strings, kept as the list
    of its own enumerable properties in property order (the validation
    errors of the server: field name, messages). *)
Definition StringArrayObject : Type := list (string * list string).

(** [Object.values(o)]. *)
Definition Object_values (o : StringArrayObject) : list (list string) :=
  map snd o.

End JS.

(* ================================================================== *)
(** ** JavaScript numbers

    A JavaScript number is an IEEE 754 binary64 value.  [double] holds the
    finite ones as [mant * 2 ^ expo]; a result that is not finite
    ([Infinity], [-Infinity], [NaN]) is [None].  The sign of zero is not
    kept.  Every arithmetic operation is the exact result rounded to the
    nearest representable value, ties to the even significand, with
    gradual underflow below [2 ^ -1022] and overflow from
    [2 ^ 1024 - 2 ^ 970] on. *)

Module Number.

Record double : Type := mk { mant : Z; expo : Z }.

Definition number : Type := option double.

(** Nearest integer to [n / d], ties to even ([0 <= n], [0 < d]). *)
Definition rne_div (n d : Z) : Z :=
  let q := n / d in
  match 2 * (n mod d) ?= d with
  | Lt => q
  | Gt => q + 1
  | Eq => if Z.even q then q else q + 1
  end.

(** The exponent of the last place of the binary64 nearest to [n / d]
    ([0 < n], [0 < d]): the [e] with [2^52 <= (n/d) / 2^e < 2^53], and
    [-1074] for the subnormal range. *)
Definition ulp_exponent (n d : Z) : Z :=
  let k := Z.log2 n - Z.log2 d in
  let e := if n * 2 ^ Z.max 0 (- k) <? d * 2 ^ Z.max 0 k then k - 53 else k - 52 in
  Z.max e (- 1074).

(** The binary64 nearest to [n / d] for [0 < n], [0 < d]. *)
Definition round_pos (n d : Z) : number :=
  let e := ulp_exponent n d in
  let m := rne_div (n * 2 ^ Z.max 0 (- e)) (d * 2 ^ Z.max 0 e) in
  if (971 <? e) || ((e =? 971) && (m =? 2 ^ 53)) then None else Some (mk m e).

(** The binary64 nearest to [n / d] for [0 < d]. *)
Definition round (n d : Z) : number :=
  match n with
  | 0 => Some (mk 0 0)
  | Zpos _ => round_pos n d
  | Zneg _ => option_map (fun x => mk (- mant x) (expo x)) (round_pos (- n) d)
  end.

(** The number an integer denotes (as read from a JSON document or
    written as a literal). *)
Definition of_Z (z : Z) : number := round z 1.

(** [x * y] *)
Definition mul (x y : number) : number :=
  match x, y with
  | Some x, Some y =>
      let e := expo x + expo y in
      round (mant x * mant y * 2 ^ Z.max 0 e) (2 ^ Z.max 0 (- e))
  | _, _ => None
  end.

(** [x / y]; a zero divisor gives an infinity or [NaN]. *)
Definition div (x y : number) : number :=
  match x, y with
  | Some x, Some y =>
      if mant y =? 0 then None
      else
        let e := expo x - expo y in
        round (Z.sgn (mant y) * mant x * 2 ^ Z.max 0 e)
              (Z.abs (mant y) * 2 ^ Z.max 0 (- e))
  | _, _ => None
  end.

(** [Math.round(x)]: the integer nearest to [x], the larger one when two
    are equally near, that is [floor (x + 1/2)]; a finite result is given
    as an integer. *)
Definition Math_round (x : number) : option Z :=
  match x with
  | Some x =>
      Some (if 0 <=? expo x then mant x * 2 ^ expo x
            else (mant x + 2 ^ (- expo x - 1)) / 2 ^ (- expo x))
  | None => None
  end.

End Number.

(* ================================================================== *)
(** ** Data model (the interfaces of the source) *)

Module Category.
Record t : Type := mk {
  category_id : Z;
  category_name : string;
  category_description : string;
  who_edited : option string;   (* who_edited?: string *)
  created_at : string;
  updated_at : string
}.
End Category.

Record DashboardStats : Type := mkDashboardStats {
  total_books : Z;
  available_books : Z;
  active_borrowers : Z;
  total_transactions : Z
}.

Record QuickStats : Type := mkQuickStats {
  books_added_today : Z;
  books_borrowed_today : Z;
  books_returned_today : Z
}.

(** The object held by [formData]; it is also the body of the two POST
    requests that carry a body. *)
Module FormData.
Record t : Type := mk {
  category_name : string;
  category_description : string;
  who_edited : string
}.

Definition empty : t := mk "" "" "".

(** The [name] attribute of the three inputs of the form. *)
Inductive field : Type := f_category_name | f_category_description | f_who_edited.

(** [{ ...prev, [name]: value }] *)
Definition set (name : field) (value : string) (prev : t) : t :=
  match name with
  | f_category_name => mk value (category_description prev) (who_edited prev)
  | f_category_description => mk (category_name prev) value (who_edited prev)
  | f_who_edited => mk (category_name prev) (category_description prev) value
  end.
End FormData.

(** The component state: one field per [useState] of the source, with the
    initial values of the source. *)
Record State : Type := mkState {
  categories : list Category.t;
  dashboardStats : DashboardStats;
  quickStats : QuickStats;
  isLoading : bool;
  error : string;
  showForm : bool;
  editingCategory : option Category.t;
  formData : FormData.t
}.

Definition initialState : State :=
  mkState [] (mkDashboardStats 0 0 0 0) (mkQuickStats 0 0 0)
          false "" false None FormData.empty.

(* ------------------------------------------------------------------ *)
(** ** The [api] collaborator *)

(** A remote call, as the arguments given to [api.get] / [api.post]. *)
Inductive Request : Type :=
| Get (url : string)
| Post (url : string) (body : option FormData.t).

(** Response bodies ([response.data]), one shape per endpoint. *)
Record SummaryBody : Type := mkSummaryBody {
  summary_success : bool;
  summary_data : DashboardStats
}.

Record CategoriesBody : Type := mkCategoriesBody {
  categories_success : bool;
  categories_data : list Category.t
}.

(** Body of the answers to create and update; [data?] is never read. *)
Record MutationBody : Type := mkMutationBody {
  success : bool;
  message : option string;
  errors : option JS.StringArrayObject
}.

Record ArchiveBody : Type := mkArchiveBody {
  archive_success : bool
}.

(** What the [catch] clauses read of the value a rejected promise carries:
    [error.response?.data?.errors] and [error.response?.data?.message].
    A network failure has no [response]. *)
Record ErrorData : Type := mkErrorData {
  err_message : option string;
  err_errors : option JS.StringArrayObject
}.

Record ErrorResponse : Type := mkErrorResponse {
  err_data : option ErrorData
}.

Record AxiosError : Type := mkAxiosError {
  err_response : option ErrorResponse
}.

(** How the awaited promise settles. *)
Inductive Outcome (R : Type) : Type :=
| Resolved (response : R)
| Rejected (err : AxiosError).
Arguments Resolved {R} response.
Arguments Rejected {R} err.

(** [error.response?.data?.errors] *)
Definition response_errors (e : AxiosError) : option JS.StringArrayObject :=
  match err_response e with
  | Some r => match err_data r with
              | Some d => err_errors d
              | None => None
              end
  | None => None
  end.

(** [error.response?.data?.message] *)
Definition response_message (e : AxiosError) : option string :=
  match err_response e with
  | Some r => match err_data r with
              | Some d => err_message d
              | None => None
              end
  | None => None
  end.

(* ------------------------------------------------------------------ *)
(** ** The monad of handlers: component state and the calls issued *)

Definition M (A : Type) : Type := State -> A * State * list Request.

Definition ret {A : Type} (a : A) : M A := fun s => (a, s, []).

Definition bind {A B : Type} (m : M A) (k : A -> M B) : M B :=
  fun s =>
    let '(a, s1, l1) := m s in
    let '(b, s2, l2) := k a s1 in
    (b, s2, (l1 ++ l2)%list).

Declare Scope handler_scope.
Delimit Scope handler_scope with handler.
Notation "x <- c1 ;; c2" := (bind c1 (fun x => c2))
  (at level 61, c1 at next level, right associativity) : handler_scope.
Notation "c1 ;; c2" := (bind c1 (fun _ => c2))
  (at level 61, right associativity) : handler_scope.
Local Open Scope handler_scope.

Definition get : M State := fun s => (s, s, []).
Definition modify (f : State -> State) : M unit := fun s => (tt, f s, []).

(** [api.get(..)] / [api.post(..)]: the call leaves the component. *)
Definition issue (r : Request) : M unit := fun s => (tt, s, [r]).

(** Final state and calls issued by a handler run from [s]. *)
Definition state_after {A : Type} (m : M A) (s : State) : State := snd (fst (m s)).
Definition calls_of {A : Type} (m : M A) (s : State) : list Request := snd (m s).
Definition result_of {A : Type} (m : M A) (s : State) : A := fst (fst (m s)).

(** The state setters. *)
Definition setCategories (v : list Category.t) : M unit :=
  modify (fun s => mkState v (dashboardStats s) (quickStats s) (isLoading s)
                           (error s) (showForm s) (editingCategory s) (formData s)).
Definition setDashboardStats (v : DashboardStats) : M unit :=
  modify (fun s => mkState (categories s) v (quickStats s) (isLoading s)
                           (error s) (showForm s) (editingCategory s) (formData s)).
Definition setQuickStats (v : QuickStats) : M unit :=
  modify (fun s => mkState (categories s) (dashboardStats s) v (isLoading s)
                           (error s) (showForm s) (editingCategory s) (formData s)).
Definition setIsLoading (v : bool) : M unit :=
  modify (fun s => mkState (categories s) (dashboardStats s) (quickStats s) v
                           (error s) (showForm s) (editingCategory s) (formData s)).
Definition setError (v : string) : M unit :=
  modify (fun s => mkState (categories s) (dashboardStats s) (quickStats s) (isLoading s)
                           v (showForm s) (editingCategory s) (formData s)).
Definition setShowForm (v : bool) : M unit :=
  modify (fun s => mkState (categories s) (dashboardStats s) (quickStats s) (isLoading s)
                           (error s) v (editingCategory s) (formData s)).
Definition setEditingCategory (v : option Category.t) : M unit :=
  modify (fun s => mkState (categories s) (dashboardStats s) (quickStats s) (isLoading s)
                           (error s) (showForm s) v (formData s)).
Definition setFormData (f : FormData.t -> FormData.t) : M unit :=
  modify (fun s => mkState (categories s) (dashboardStats s) (quickStats s) (isLoading s)
                           (error s) (showForm s) (editingCategory s) (f (formData s))).

(* ================================================================== *)
(** ** The handlers of the component *)

(** The URLs of the five endpoints, as the source writes them. *)
Definition url_summary : string := "/dashboard/summary".
Definition url_categories : string := "/categories".
Definition url_create : string := "/create/categories".
Definition url_update (id : Z) : string := "/update/categories/" ++ JS.Number_toString id.
Definition url_archive (id : Z) : string := "/archive/categories/" ++ JS.Number_toString id.

(** *** fetchDashboardSummary *)

(** Up to [await api.get('/dashboard/summary')]. *)
Definition fetchDashboardSummary_request : M unit :=
  issue (Get url_summary).

(** After the [await]: the [if] without [else] of the [try] block, and the
    [catch] block ([console.error] is not modelled). *)
Definition fetchDashboardSummary_resume (o : Outcome SummaryBody) : M unit :=
  match o with
  | Resolved response =>
      if summary_success response
      then setDashboardStats (summary_data response)
      else ret tt
  | Rejected _ => setError "Failed to fetch dashboard data"
  end.

(** *** fetchCategories *)

Definition fetchCategories_request : M unit :=
  issue (Get url_categories).

Definition fetchCategories_resume (o : Outcome CategoriesBody) : M unit :=
  match o with
  | Resolved response =>
      if categories_success response
      then setCategories (categories_data response)
      else ret tt
  | Rejected _ => setError "Failed to fetch categories"
  end.

(** *** fetchQuickStats: no remote call, fixed values *)

Definition fetchQuickStats : M unit :=
  setQuickStats (mkQuickStats 2 5 3).

(** *** The effect run on mount *)

Definition onMount : M unit :=
  fetchDashboardSummary_request ;;
  fetchCategories_request ;;
  fetchQuickStats.

(** *** handleInputChange *)

Definition handleInputChange (name : FormData.field) (value : string) : M unit :=
  setFormData (FormData.set name value).

(** *** resetForm *)

Definition resetForm : M unit :=
  setFormData (fun _ => FormData.mk "" "" "") ;;
  setEditingCategory None ;;
  setShowForm false ;;
  setError "".

(** The body of both POST requests:
    [{ ...formData, who_edited: formData.who_edited || 'Admin' }]. *)
Definition request_body (f : FormData.t) : FormData.t :=
  FormData.mk (FormData.category_name f)
              (FormData.category_description f)
              (JS.or_else (FormData.who_edited f) "Admin").

(** How an [async] handler ends: its promise is fulfilled, or an exception
    left the handler (here only the [TypeError] of indexing [undefined]). *)
Inductive Completion : Type :=
| Fulfilled
| Threw (exn : string).

(** The [catch] block shared, up to the fallback text, by create and
    update.  [Object.values(errors)[0]] is [undefined] for an object with
    no property, and indexing it throws. *)
Definition catch_submit (fallback : string) (err : AxiosError) : M Completion :=
  match response_errors err with
  | Some errors =>
      match JS.Object_values errors with
      | firstError :: _ =>
          setError (JS.opt_or_else (nth_error firstError 0) "Validation failed") ;;
          ret Fulfilled
      | [] => ret (Threw "TypeError")
      end
  | None =>
      setError (JS.opt_or_else (response_message err) fallback) ;;
      ret Fulfilled
  end.

(** *** handleCreateCategory *)

(** Up to [await api.post('/create/categories', ..)]
    ([e.preventDefault()] acts on the DOM event only). *)
Definition handleCreateCategory_request : M unit :=
  setIsLoading true ;;
  setError "" ;;
  s <- get ;;
  issue (Post url_create (Some (request_body (formData s)))).

(** After the [await]: [try] block, [catch] block, then [finally]. *)
Definition handleCreateCategory_resume (o : Outcome MutationBody) : M Completion :=
  c <- match o with
       | Resolved response =>
           if success response
           then resetForm ;;
                fetchCategories_request ;;
                fetchDashboardSummary_request ;;
                ret Fulfilled
           else setError (JS.opt_or_else (message response) "Failed to create category") ;;
                ret Fulfilled
       | Rejected err => catch_submit "Failed to create category" err
       end ;;
  setIsLoading false ;;
  ret c.

(** *** handleUpdateCategory *)

(** Up to the [await]; the result tells whether a call was issued
    ([false]: the guard [if (!editingCategory) return] fired). *)
Definition handleUpdateCategory_request : M bool :=
  s <- get ;;
  match editingCategory s with
  | None => ret false
  | Some c =>
      setIsLoading true ;;
      setError "" ;;
      issue (Post (url_update (Category.category_id c))
                  (Some (request_body (formData s)))) ;;
      ret true
  end.

Definition handleUpdateCategory_resume (o : Outcome MutationBody) : M Completion :=
  c <- match o with
       | Resolved response =>
           if success response
           then resetForm ;;
                fetchCategories_request ;;
                ret Fulfilled
           else setError (JS.opt_or_else (message response) "Failed to update category") ;;
                ret Fulfilled
       | Rejected err => catch_submit "Failed to update category" err
       end ;;
  setIsLoading false ;;
  ret c.

(** *** handleDeleteCategory *)

(** Up to the [await]; [confirmed] is the answer of the [confirm] dialog.
    The result tells whether the call was issued. *)
Definition handleDeleteCategory_request (id : Z) (confirmed : bool) : M bool :=
  if negb confirmed then ret false
  else issue (Post (url_archive id) None) ;; ret true.

Definition handleDeleteCategory_resume (o : Outcome ArchiveBody) : M unit :=
  match o with
  | Resolved response =>
      if archive_success response
      then fetchCategories_request ;;
           fetchDashboardSummary_request
      else ret tt
  | Rejected _ => setError "Failed to delete category"
  end.

(** *** startEdit *)

Definition startEdit (category : Category.t) : M unit :=
  setEditingCategory (Some category) ;;
  setFormData (fun _ =>
    FormData.mk (Category.category_name category)
                (Category.category_description category)
                (JS.opt_or_else (Category.who_edited category) "")) ;;
  setShowForm true.

(** *** The "Add Category" button: [onClick={() => setShowForm(true)}] *)

Definition clickAddCategory : M unit := setShowForm true.

(** *** The form's [onSubmit]:
    [editingCategory ? handleUpdateCategory : handleCreateCategory] *)

Definition onSubmit_request : M unit :=
  s <- get ;;
  match editingCategory s with
  | Some _ => handleUpdateCategory_request ;; ret tt
  | None => handleCreateCategory_request
  end.

(* ------------------------------------------------------------------ *)
(** ** The component as a machine driven by events

    User actions start handlers; the settling of a promise resumes the
    handler that awaits it.  Events are handled one at a time (a single
    UI event loop). *)

Inductive Event : Type :=
| Mounted
| AddCategoryClicked
| InputChanged (name : FormData.field) (value : string)
| FormSubmitted
| CancelClicked
| EditClicked (category : Category.t)
| DeleteClicked (id : Z) (confirmed : bool)
| SummarySettled (o : Outcome SummaryBody)
| CategoriesSettled (o : Outcome CategoriesBody)
| CreateSettled (o : Outcome MutationBody)
| UpdateSettled (o : Outcome MutationBody)
| ArchiveSettled (o : Outcome ArchiveBody).

Definition handle (ev : Event) : M unit :=
  match ev with
  | Mounted => onMount
  | AddCategoryClicked => clickAddCategory
  | InputChanged name value => handleInputChange name value
  | FormSubmitted => onSubmit_request
  | CancelClicked => resetForm
  | EditClicked category => startEdit category
  | DeleteClicked id confirmed => handleDeleteCategory_request id confirmed ;; ret tt
  | SummarySettled o => fetchDashboardSummary_resume o
  | CategoriesSettled o => fetchCategories_resume o
  | CreateSettled o => handleCreateCategory_resume o ;; ret tt
  | UpdateSettled o => handleUpdateCategory_resume o ;; ret tt
  | ArchiveSettled o => handleDeleteCategory_resume o
  end.

(** Running a list of events from a state: final state and all calls. *)
Fixpoint run (evs : list Event) (s : State) : State * list Request :=
  match evs with
  | [] => (s, [])
  | ev :: rest =>
      let '(_, s1, l1) := handle ev s in
      let '(s2, l2) := run rest s1 in
      (s2, (l1 ++ l2)%list)
  end.

(** A whole submission with nothing in between: request part, then the
    resumption with the given outcome. *)
Definition handleCreateCategory (o : Outcome MutationBody) : M Completion :=
  handleCreateCategory_request ;; handleCreateCategory_resume o.

Definition handleUpdateCategory (o : Outcome MutationBody) : M Completion :=
  sent <- handleUpdateCategory_request ;;
  if (sent : bool) then handleUpdateCategory_resume o else ret Fulfilled.

Definition handleDeleteCategory (id : Z) (confirmed : bool) (o : Outcome ArchiveBody) : M unit :=
  sent <- handleDeleteCategory_request id confirmed ;;
  if (sent : bool) then handleDeleteCategory_resume o else ret tt.

Definition fetchDashboardSummary (o : Outcome SummaryBody) : M unit :=
  fetchDashboardSummary_request ;; fetchDashboardSummary_resume o.

Definition fetchCategories (o : Outcome CategoriesBody) : M unit :=
  fetchCategories_request ;; fetchCategories_resume o.

(* ================================================================== *)
(** ** Derived metrics (computed at every render)

    The counts of [DashboardStats] are kept as integers and turned into
    numbers where the arithmetic starts.  The test [> 0] and [Math.max]
    are taken on the integers: they only compare, and the numbers that
    integers denote are ordered as the integers are. *)

(** [const availabilityPercentage = dashboardStats.total_books > 0
       ? Math.round((dashboardStats.available_books / dashboardStats.total_books) * 100)
       : 0] *)
Definition availabilityPercentage (s : DashboardStats) : option Z :=
  if 0 <? total_books s
  then Number.Math_round
         (Number.mul (Number.div (Number.of_Z (available_books s))
                                 (Number.of_Z (total_books s)))
                     (Number.of_Z 100))
  else Some 0.

(** The usage rate shown in the "Library Health" card:
    [Math.round((dashboardStats.total_transactions /
                 Math.max(dashboardStats.total_books, 1)) * 100)] *)
Definition usageRate (s : DashboardStats) : option Z :=
  Number.Math_round
    (Number.mul (Number.div (Number.of_Z (total_transactions s))
                            (Number.of_Z (Z.max (total_books s) 1)))
                (Number.of_Z 100)).

(** The label under the availability rate:
    [availabilityPercentage >= 70 ? 'Excellent' :
     availabilityPercentage >= 40 ? 'Good' : 'Needs Attention'] *)
Definition healthLabel (availability : Z) : string :=
  if 70 <=? availability then "Excellent"
  else if 40 <=? availability then "Good"
  else "Needs Attention".

(** [availabilityPercentage >= 50 ? 'well-stocked' : 'getting busy'] *)
Definition stockLabel (availability : Z) : string :=
  if 50 <=? availability then "well-stocked" else "getting busy".

(** [dashboardStats.total_books - dashboardStats.available_books] *)
Definition borrowedBooks (s : DashboardStats) : Z :=
  total_books s - available_books s.

(* ------------------------------------------------------------------ *)
(** ** Values used to state the properties *)

(** A rejected call whose response carries the given body. *)
Definition http_error (msg : option string) (errs : option JS.StringArrayObject) : AxiosError :=
  mkAxiosError (Some (mkErrorResponse (Some (mkErrorData msg errs)))).

(** A rejected call with no response at all (network failure, timeout). *)
Definition network_error : AxiosError := mkAxiosError None.

(** The ways the dashboard-summary fetch can fail according to the
    specification: the call is rejected (transport or parse error), or the
    body says [success: false]. *)
Definition summary_failed (o : Outcome SummaryBody) : Prop :=
  match o with
  | Rejected _ => True
  | Resolved response => summary_success response = false
  end.

(** Likewise for the archive call. *)
Definition archive_failed (o : Outcome ArchiveBody) : Prop :=
  match o with
  | Rejected _ => True
  | Resolved response => archive_success response = false
  end.

(** The fields of the form state. *)
Definition form_cleared (s : State) : Prop :=
  formData s = FormData.mk "" "" "" /\ editingCategory s = None /\ showForm s = false.

(** Two states that differ at most in [error] and [isLoading]. *)
Definition same_data_and_form (s s' : State) : Prop :=
  categories s' = categories s /\
  dashboardStats s' = dashboardStats s /\
  quickStats s' = quickStats s /\
  showForm s' = showForm s /\
  editingCategory s' = editingCategory s /\
  formData s' = formData s.

(** Sample values for the closed statements. *)
Definition sample_category : Category.t :=
  Category.mk 7 "Fiction" "Novels and short stories" (Some "Maria")
              "2024-01-01T00:00:00Z" "2024-02-01T00:00:00Z".

Definition sample_state : State :=
  mkState [sample_category] (mkDashboardStats 100 45 12 230) (mkQuickStats 2 5 3)
          false "Failed to fetch categories" true (Some sample_category)
          (FormData.mk "Fiction" "Novels" "").


(* ------------------------------------------------------------------ *)
(** ** Exact arithmetic, to compare the metrics with *)

(** [2 ^ e] as a rational, for any integer [e]. *)
Definition pow2 (e : Z) : Q := Qpower 2 e.

(** The rational a finite number stands for. *)
Definition value (x : Number.double) : Q :=
  (inject_Z (Number.mant x) * pow2 (Number.expo x))%Q.

(** The largest relative error of one rounding, [2 ^ -53]. *)
Definition eps : Q := 1 # 9007199254740992.

(** The integer nearest to the exact quotient [n / d], the larger one
    when two are equally near: [floor (n / d + 1/2)], for [0 < d]. *)
Definition round_half_up (n d : Z) : Z := (2 * n + d) / (2 * d).

(** The exact quotient [n / d] lies halfway between two integers. *)
Definition half_way (n d : Z) : Prop := (2 * n + d) mod (2 * d) = 0.

(** The metrics as the specification words them, read in exact
    arithmetic:
    [availability_percentage = round(available_books / total_books * 100)]
    when [total_books > 0], else [0];
    [usage_rate = round(total_transactions / max(total_books, 1) * 100)]. *)
Definition availability_percentage_spec (s : DashboardStats) : Z :=
  if 0 <? total_books s
  then round_half_up (100 * available_books s) (total_books s)
  else 0.

Definition usage_rate_spec (s : DashboardStats) : Z :=
  round_half_up (100 * total_transactions s) (Z.max (total_books s) 1).

(** The expression the two metrics have in common,
    [Math.round((a / t) * 100)]. *)
Definition round_percent (a t : Z) : option Z :=
  Number.Math_round
    (Number.mul (Number.div (Number.of_Z a) (Number.of_Z t)) (Number.of_Z 100)).

(** The same product evaluated with the binary64 arithmetic of the
    machine, to check [Number] against. *)
Definition binary64_product (a t : Z) : SpecFloat.spec_float :=
  Prim2SF (PrimFloat.mul
             (PrimFloat.div (PrimFloat.of_uint63 (Uint63.of_Z a))
                            (PrimFloat.of_uint63 (Uint63.of_Z t)))
             (PrimFloat.of_uint63 (Uint63.of_Z 100))).

(** A number of the model and a binary64 value are the same number
    (signs of zero and the kinds of non-finite values apart). *)
Definition same_number (x : Number.number) (y : SpecFloat.spec_float) : bool :=
  match x, y with
  | Some x, SpecFloat.S754_finite sign m e =>
      let lo := Z.min (Number.expo x) e in
      Number.mant x * 2 ^ (Number.expo x - lo)
      =? (if sign then Z.neg m else Z.pos m) * 2 ^ (e - lo)
  | Some x, SpecFloat.S754_zero _ => Number.mant x =? 0
  | None, SpecFloat.S754_infinity _ => true
  | None, SpecFloat.S754_nan => true
  | _, _ => false
  end.

(** Quotient and product of [m1 * 2 ^ e1] and [m2 * 2 ^ e2] in the model
    and by the binary64 operations of [SpecFloat]. *)
Definition same_div_mul (m1 e1 m2 e2 : Z) : bool :=
  let x := Some (Number.mk m1 e1) in
  let y := Some (Number.mk m2 e2) in
  let x' := binary_normalize 53 1024 m1 e1 false in
  let y' := binary_normalize 53 1024 m2 e2 false in
  same_number (Number.div x y) (SFdiv 53 1024 x' y') &&
  same_number (Number.mul x y) (SFmul 53 1024 x' y').

(** All pairs of counts up to [n], [n] excluded. *)
Definition agree_up_to (n : nat) : bool :=
  forallb (fun a =>
    forallb (fun t =>
      same_number
        (Number.mul (Number.div (Number.of_Z (Z.of_nat a)) (Number.of_Z (Z.of_nat t)))
                    (Number.of_Z 100))
        (binary64_product (Z.of_nat a) (Z.of_nat t)))
      (seq 0 n))
    (seq 0 n).


(* ------------------------------------------------------------------ *)
(** ** What the component renders of the form

    The form block is rendered under [showForm && (...)]: its heading is
    [editingCategory ? 'Edit Category' : 'Create New Category'], the error
    box is rendered under [error && (...)], and the submit button reads
    [isLoading ? 'Saving...' : editingCategory ? 'Update Category' :
    'Create Category'].  [None] stands for "not rendered". *)

Definition formHeading (s : State) : option string :=
  if showForm s
  then Some (match editingCategory s with
             | Some _ => "Edit Category"
             | None => "Create New Category"
             end)
  else None.

Definition errorBox (s : State) : option string :=
  if showForm s
  then (if String.eqb (error s) "" then None else Some (error s))
  else None.

Definition submitLabel (s : State) : option string :=
  if showForm s
  then Some (if isLoading s then "Saving..."
             else match editingCategory s with
                  | Some _ => "Update Category"
                  | None => "Create Category"
                  end)
  else None.

(** [formData[name]], the value shown by the input called [name]. *)
Definition form_field (name : FormData.field) (f : FormData.t) : string :=
  match name with
  | FormData.f_category_name => FormData.category_name f
  | FormData.f_category_description => FormData.category_description f
  | FormData.f_who_edited => FormData.who_edited f
  end.

(** *** Which events the rendered page lets happen

    The inputs, the submit button and Cancel exist only while the form is
    rendered and carry [disabled={isLoading}]; the name input is
    [required], so the browser does not fire [onSubmit] while it is empty.
    The edit and delete buttons exist once per listed category and are
    never disabled.  "Add Category" is always there.  Mounting and the
    settling of promises are not restricted here (more than can happen). *)

Definition Category_eqb (a b : Category.t) : bool :=
  (Category.category_id a =? Category.category_id b) &&
  String.eqb (Category.category_name a) (Category.category_name b) &&
  String.eqb (Category.category_description a) (Category.category_description b) &&
  match Category.who_edited a, Category.who_edited b with
  | Some x, Some y => String.eqb x y
  | None, None => true
  | _, _ => false
  end &&
  String.eqb (Category.created_at a) (Category.created_at b) &&
  String.eqb (Category.updated_at a) (Category.updated_at b).

Definition enabled (s : State) (ev : Event) : bool :=
  match ev with
  | Mounted | AddCategoryClicked => true
  | InputChanged _ _ | CancelClicked => showForm s && negb (isLoading s)
  | FormSubmitted =>
      showForm s && negb (isLoading s) &&
      negb (String.eqb (FormData.category_name (formData s)) "")
  | EditClicked category => existsb (Category_eqb category) (categories s)
  | DeleteClicked id _ =>
      existsb (fun c => Category.category_id c =? id) (categories s)
  | SummarySettled _ | CategoriesSettled _ | CreateSettled _
  | UpdateSettled _ | ArchiveSettled _ => true
  end.

(** Every event of the list is enabled in the state it meets. *)
Fixpoint all_enabled (evs : list Event) (s : State) : bool :=
  match evs with
  | [] => true
  | ev :: rest => enabled s ev && all_enabled rest (state_after (handle ev) s)
  end.

(** *** Kinds of calls *)

Definition is_get (r : Request) : bool :=
  match r with Get _ => true | Post _ _ => false end.

(** The statistics held after the answers [os] to the dashboard-summary
    fetch have settled in that order, starting from [d]: those of the last
    answer that resolved with [success: true]. *)
Fixpoint last_successful_summary (os : list (Outcome SummaryBody)) (d : DashboardStats)
  : DashboardStats :=
  match os with
  | [] => d
  | Resolved response :: rest =>
      last_successful_summary rest
        (if summary_success response then summary_data response else d)
  | Rejected _ :: rest => last_successful_summary rest d
  end.

(* ================================================================== *)
(** * Properties *)

(** Unfolds a handler down to the state it returns. *)
Ltac run_handler :=
  cbv [state_after calls_of result_of
       handle onMount onSubmit_request clickAddCategory startEdit resetForm
       handleInputChange fetchQuickStats
       fetchDashboardSummary fetchDashboardSummary_request fetchDashboardSummary_resume
       fetchCategories fetchCategories_request fetchCategories_resume
       handleCreateCategory handleCreateCategory_request handleCreateCategory_resume
       handleUpdateCategory handleUpdateCategory_request handleUpdateCategory_resume
       handleDeleteCategory handleDeleteCategory_request handleDeleteCategory_resume
       catch_submit request_body
       setCategories setDashboardStats setQuickStats setIsLoading setError
       setShowForm setEditingCategory setFormData
       bind ret get modify issue];
  cbn [fst snd app categories dashboardStats quickStats isLoading error showForm
       editingCategory formData].

Lemma or_else_nonempty (s d : string) : s <> "" -> JS.or_else s d = s.
Proof.
  intros Hs. unfold JS.or_else.
  destruct (String.eqb_spec s ""); [contradiction | reflexivity].
Qed.

(** ** Create *)

(** C1.  A create submission issues one POST to [/create/categories] whose
    body carries the name and the description of the form as they are and
    the editor of the form, or "Admin" when that field is the empty
    string.  When the answer reports success, whatever happened in between,
    the form is cleared (empty fields, no editing target, form hidden), the
    error slot and the loading flag are reset, the data already loaded are
    kept, and the category list and the dashboard summary are both fetched
    again. *)
Theorem create_submission_sends_form_and_refreshes
  (s s' : State) (response : MutationBody) (Hok : success response = true) :
  (exists body,
      calls_of handleCreateCategory_request s = [Post url_create (Some body)] /\
      FormData.category_name body = FormData.category_name (formData s) /\
      FormData.category_description body = FormData.category_description (formData s) /\
      (FormData.who_edited (formData s) = "" -> FormData.who_edited body = "Admin") /\
      (FormData.who_edited (formData s) <> "" ->
         FormData.who_edited body = FormData.who_edited (formData s))) /\
  form_cleared (state_after (handleCreateCategory_resume (Resolved response)) s') /\
  categories (state_after (handleCreateCategory_resume (Resolved response)) s') = categories s' /\
  dashboardStats (state_after (handleCreateCategory_resume (Resolved response)) s') = dashboardStats s' /\
  error (state_after (handleCreateCategory_resume (Resolved response)) s') = "" /\
  isLoading (state_after (handleCreateCategory_resume (Resolved response)) s') = false /\
  calls_of (handleCreateCategory_resume (Resolved response)) s' =
    [Get url_categories; Get url_summary].
Proof.
  split.
  - exists (request_body (formData s)). split; [reflexivity|].
    unfold request_body; simpl. repeat split.
    + intros ->. reflexivity.
    + apply or_else_nonempty.
  - run_handler. rewrite Hok. unfold form_cleared. simpl. repeat split.
Qed.

Lemma create_submission_witness :
  success (mkMutationBody true None None) = true /\
  form_cleared
    (state_after (handleCreateCategory_resume (Resolved (mkMutationBody true None None)))
                 sample_state).
Proof.
  split; [reflexivity|].
  apply (create_submission_sends_form_and_refreshes
           sample_state sample_state (mkMutationBody true None None)).
  reflexivity.
Defined.

(** ** Fetching the dashboard summary *)

(** C2, as the specification states it, fails: a body with
    [success: false] leaves the statistics alone but sets no message.
    Here the summary is fetched from the initial state and the answer is
    [{ success: false, data: .. }]; the error slot is still empty. *)
Lemma summary_success_false_sets_no_error :
  summary_failed (Resolved (mkSummaryBody false (mkDashboardStats 10 4 2 7))) /\
  error (state_after
           (fetchDashboardSummary (Resolved (mkSummaryBody false (mkDashboardStats 10 4 2 7))))
           initialState) = "" /\
  error (state_after
           (fetchDashboardSummary (Resolved (mkSummaryBody false (mkDashboardStats 10 4 2 7))))
           initialState) <> "Failed to fetch dashboard data".
Proof. repeat split. discriminate. Qed.

(** C2, amended.  Whenever the dashboard-summary fetch fails, the stored
    statistics are left as they were.  When the call is rejected
    (transport or parse error) the error slot becomes
    "Failed to fetch dashboard data" and nothing else changes.  When the
    call resolves with [success: false] the whole state, error slot
    included, is left as it was.  No further call is issued. *)
Theorem summary_failure_keeps_stats
  (s : State) (o : Outcome SummaryBody) (Hfail : summary_failed o) :
  dashboardStats (state_after (fetchDashboardSummary_resume o) s) = dashboardStats s /\
  calls_of (fetchDashboardSummary_resume o) s = [] /\
  match o with
  | Rejected _ =>
      error (state_after (fetchDashboardSummary_resume o) s) = "Failed to fetch dashboard data" /\
      same_data_and_form s (state_after (fetchDashboardSummary_resume o) s) /\
      isLoading (state_after (fetchDashboardSummary_resume o) s) = isLoading s
  | Resolved _ => state_after (fetchDashboardSummary_resume o) s = s
  end.
Proof.
  destruct o as [response | err]; simpl in Hfail.
  - run_handler. rewrite Hfail. repeat split.
  - run_handler. unfold same_data_and_form. simpl. repeat split.
Qed.

Lemma summary_failure_witness :
  summary_failed (Rejected network_error) /\
  dashboardStats (state_after (fetchDashboardSummary_resume (Rejected network_error)) sample_state)
  = dashboardStats sample_state.
Proof.
  split; [exact I|].
  apply (summary_failure_keeps_stats sample_state (Rejected network_error)).
  exact I.
Defined.

(** ** Update *)

(** C3.  A successful update fetches the category list again and nothing
    else: the submission issues the POST for the category being edited,
    and the resumption on a success answer issues exactly
    [GET /categories], so the dashboard summary is not requested; the
    resumptions of a successful create and of a successful archive
    request both. *)
Theorem update_success_refreshes_only_categories
  (s s' : State) (c : Category.t) (response : MutationBody)
  (Hedit : editingCategory s = Some c) (Hok : success response = true) :
  calls_of handleUpdateCategory_request s =
    [Post (url_update (Category.category_id c)) (Some (request_body (formData s)))] /\
  calls_of (handleUpdateCategory_resume (Resolved response)) s' = [Get url_categories] /\
  ~ In (Get url_summary) (calls_of (handleUpdateCategory_resume (Resolved response)) s') /\
  calls_of (handleUpdateCategory (Resolved response)) s =
    [Post (url_update (Category.category_id c)) (Some (request_body (formData s)));
     Get url_categories] /\
  form_cleared (state_after (handleUpdateCategory_resume (Resolved response)) s') /\
  dashboardStats (state_after (handleUpdateCategory_resume (Resolved response)) s') = dashboardStats s' /\
  calls_of (handleCreateCategory_resume (Resolved response)) s' =
    [Get url_categories; Get url_summary] /\
  calls_of (handleDeleteCategory_resume (Resolved (mkArchiveBody true))) s' =
    [Get url_categories; Get url_summary].
Proof.
  repeat split.
  - run_handler. rewrite Hedit. reflexivity.
  - run_handler. rewrite Hok. reflexivity.
  - run_handler. rewrite Hok. simpl. intros [H | []]. discriminate H.
  - run_handler. rewrite Hedit. simpl. rewrite Hok. reflexivity.
  - run_handler. rewrite Hok. reflexivity.
  - run_handler. rewrite Hok. reflexivity.
  - run_handler. rewrite Hok. reflexivity.
  - run_handler. rewrite Hok. reflexivity.
  - run_handler. rewrite Hok. reflexivity.
Qed.

Lemma update_success_witness :
  editingCategory sample_state = Some sample_category /\
  success (mkMutationBody true None None) = true /\
  calls_of (handleUpdateCategory (Resolved (mkMutationBody true None None))) sample_state =
    [Post "/update/categories/7" (Some (FormData.mk "Fiction" "Novels" "Admin"));
     Get "/categories"].
Proof.
  split; [reflexivity|]. split; [reflexivity|].
  apply (update_success_refreshes_only_categories
           sample_state sample_state sample_category (mkMutationBody true None None));
    reflexivity.
Defined.

(** C10.  Submitting an update while no category is being edited does
    nothing: the handler returns at its guard, the state (loading flag
    included) is the one it started from and no call is issued. *)
Theorem update_without_target_is_noop
  (s : State) (o : Outcome MutationBody) (Hnone : editingCategory s = None) :
  handleUpdateCategory_request s = (false, s, []) /\
  handleUpdateCategory o s = (Fulfilled, s, []).
Proof.
  split; run_handler; rewrite Hnone; reflexivity.
Qed.

Lemma update_without_target_witness :
  editingCategory initialState = None /\
  handleUpdateCategory (Resolved (mkMutationBody true None None)) initialState
  = (Fulfilled, initialState, []).
Proof.
  split; [reflexivity|].
  apply (update_without_target_is_noop initialState (Resolved (mkMutationBody true None None))).
  reflexivity.
Defined.

(** ** Editing and cancelling *)

(** C9.  [startEdit(category)] followed by Cancel leaves the form cleared
    (empty fields, no editing target, form hidden); neither step issues a
    call, and the data loaded and the loading flag are as before. *)
Theorem start_edit_then_cancel_is_idle (s : State) (category : Category.t) :
  form_cleared (fst (run [EditClicked category; CancelClicked] s)) /\
  snd (run [EditClicked category; CancelClicked] s) = [] /\
  calls_of (startEdit category) s = [] /\
  calls_of resetForm (state_after (startEdit category) s) = [] /\
  categories (fst (run [EditClicked category; CancelClicked] s)) = categories s /\
  dashboardStats (fst (run [EditClicked category; CancelClicked] s)) = dashboardStats s /\
  isLoading (fst (run [EditClicked category; CancelClicked] s)) = isLoading s.
Proof.
  unfold form_cleared. repeat split.
Qed.

(** ** Failed submissions *)

(** C4, as the specification states it, fails.  A create submission is
    rejected with the validation errors [{ category_name: [""] }]: the
    map is not empty, the first message of its first field is the empty
    string, and the text surfaced is "Validation failed". *)
Lemma empty_first_message_surfaces_fallback :
  response_errors (http_error None (Some [("category_name", [""])]))
    = Some [("category_name", [""])] /\
  nth_error [""] 0 = Some "" /\
  error (state_after
           (handleCreateCategory
              (Rejected (http_error None (Some [("category_name", [""])]))))
           initialState) = "Validation failed" /\
  error (state_after
           (handleCreateCategory
              (Rejected (http_error None (Some [("category_name", [""])]))))
           initialState) <> "".
Proof. repeat split. discriminate. Qed.

(** The validation errors are read only from a rejected call: a create
    that resolves with [success: false] and the errors
    [{ category_name: ["Name required"] }] surfaces the generic text. *)
Lemma resolved_failure_ignores_validation_errors :
  error (state_after
           (handleCreateCategory
              (Resolved (mkMutationBody false None
                           (Some [("category_name", ["Name required"])]))))
           initialState) = "Failed to create category".
Proof. reflexivity. Qed.

(** C4, amended.  [resume] is the resumption of create or of update and
    [fallback] its generic text.  When the call is rejected with a
    response whose validation-errors map is not empty, the text surfaced
    is the first message of the first field, or "Validation failed" when
    that message is the empty string or the field has no message.  When
    the call is rejected with no validation-errors map, the text surfaced
    is the message of the response, or the generic text when there is no
    message or it is empty.  When the call resolves with [success: false]
    the text surfaced is chosen in that second way, with or without a
    validation-errors map.  In all three cases the form stays as it is
    (shown, same fields, same editing target), the data loaded are kept,
    the loading flag is dropped and no call is issued. *)
Theorem failed_submission_surfaces_message
  (create : bool) (s : State) (o : Outcome MutationBody)
  (Hfail : match o with
           | Resolved response => success response = false
           | Rejected err => response_errors err <> Some []
           end) :
  let resume := if create then handleCreateCategory_resume else handleUpdateCategory_resume in
  let fallback := if create then "Failed to create category" else "Failed to update category" in
  let s' := state_after (resume o) s in
  error s' =
    match o with
    | Resolved response => JS.opt_or_else (message response) fallback
    | Rejected err =>
        match response_errors err with
        | Some ((_, first :: _) :: _) =>
            if String.eqb first "" then "Validation failed" else first
        | Some _ => "Validation failed"
        | None => JS.opt_or_else (response_message err) fallback
        end
    end /\
  same_data_and_form s s' /\
  isLoading s' = false /\
  calls_of (resume o) s = [] /\
  result_of (resume o) s = Fulfilled.
Proof.
  destruct create; cbv zeta;
    (destruct o as [response | err]; cbn beta iota in Hfail;
     [ run_handler; rewrite Hfail; unfold same_data_and_form; simpl; repeat split
     | unfold handleCreateCategory_resume, handleUpdateCategory_resume, catch_submit;
       revert Hfail;
       destruct (response_errors err) as [[|[field [|first rest]] more]|]; intros Hfail;
       [ exfalso; apply Hfail; reflexivity
       | run_handler; unfold same_data_and_form; simpl; repeat split
       | run_handler; unfold same_data_and_form; simpl; repeat split;
         unfold JS.or_else; reflexivity
       | run_handler; unfold same_data_and_form; simpl; repeat split ] ]).
Qed.

Lemma failed_submission_witness :
  response_errors (http_error None (Some [("category_name", ["Name required"])])) <> Some [] /\
  error (state_after
           (handleCreateCategory_resume
              (Rejected (http_error None (Some [("category_name", ["Name required"])]))))
           sample_state) = "Name required".
Proof.
  split; [discriminate|].
  apply (failed_submission_surfaces_message true sample_state
           (Rejected (http_error None (Some [("category_name", ["Name required"])])))).
  discriminate.
Defined.

(** ** Archive *)

(** C5, as the specification states it, fails: an archive call that is
    answered [{ success: false }] has failed, and no text is surfaced. *)
Lemma archive_success_false_sets_no_error :
  archive_failed (Resolved (mkArchiveBody false)) /\
  error (state_after (handleDeleteCategory 7 true (Resolved (mkArchiveBody false)))
                     initialState) = "" /\
  error (state_after (handleDeleteCategory 7 true (Resolved (mkArchiveBody false)))
                     initialState) <> "Failed to delete category".
Proof. repeat split. discriminate. Qed.

(** C5, amended.  No call is issued unless the confirmation is accepted,
    and then exactly the archive POST is, the state staying as it is.
    When the answer reports success, the category list and the dashboard
    summary are both fetched again and the state is not touched.  When
    the call is rejected, "Failed to delete category" is surfaced and
    nothing else changes.  When the call resolves with [success: false],
    nothing is surfaced: the state is left as it was and no call is
    issued. *)
Theorem archive_confirm_refresh_and_failure (s : State) (id : Z) :
  handleDeleteCategory_request id false s = (false, s, []) /\
  handleDeleteCategory_request id true s = (true, s, [Post (url_archive id) None]) /\
  (forall o, handleDeleteCategory id false o s = (tt, s, [])) /\
  handleDeleteCategory_resume (Resolved (mkArchiveBody true)) s =
    (tt, s, [Get url_categories; Get url_summary]) /\
  (forall err,
     error (state_after (handleDeleteCategory_resume (Rejected err)) s)
       = "Failed to delete category" /\
     same_data_and_form s (state_after (handleDeleteCategory_resume (Rejected err)) s) /\
     isLoading (state_after (handleDeleteCategory_resume (Rejected err)) s) = isLoading s /\
     calls_of (handleDeleteCategory_resume (Rejected err)) s = []) /\
  handleDeleteCategory_resume (Resolved (mkArchiveBody false)) s = (tt, s, []).
Proof.
  unfold same_data_and_form. repeat split.
Qed.

(** ** The shared error slot *)

(** C8, as the specification states it, fails: with "Failed to fetch
    categories" in the error slot, opening the create form with the
    "Add Category" button, or the edit form with [startEdit], leaves
    that text in place. *)
Lemma opening_form_keeps_error :
  error sample_state = "Failed to fetch categories" /\
  error (state_after (handle AddCategoryClicked) sample_state) = "Failed to fetch categories" /\
  error (state_after (handle (EditClicked sample_category)) sample_state)
    = "Failed to fetch categories" /\
  error (state_after (handle AddCategoryClicked) sample_state) <> "".
Proof. repeat split. discriminate. Qed.

(** C8, amended.  The error slot is emptied by Cancel, by the start of a
    create or update submission, and by the answer to a submission that
    reports success.  It is left as it is by opening the create form, by
    [startEdit], by typing in the form, by mounting, by starting an
    archive (confirmed or not), and by every answer of a fetch or of an
    archive that resolves (with success or not).  A rejected fetch or
    archive replaces it by its own text. *)
Theorem error_slot_transitions
  (s : State) (response : MutationBody) (Hok : success response = true) :
  (* emptied *)
  error (state_after (handle CancelClicked) s) = "" /\
  error (state_after (handle FormSubmitted) s) = "" /\
  error (state_after (handle (CreateSettled (Resolved response))) s) = "" /\
  error (state_after (handle (UpdateSettled (Resolved response))) s) = "" /\
  (* kept *)
  error (state_after (handle AddCategoryClicked) s) = error s /\
  (forall c, error (state_after (handle (EditClicked c)) s) = error s) /\
  (forall name value, error (state_after (handle (InputChanged name value)) s) = error s) /\
  error (state_after (handle Mounted) s) = error s /\
  (forall id confirmed, error (state_after (handle (DeleteClicked id confirmed)) s) = error s) /\
  (forall body, error (state_after (handle (SummarySettled (Resolved body))) s) = error s) /\
  (forall body, error (state_after (handle (CategoriesSettled (Resolved body))) s) = error s) /\
  (forall body, error (state_after (handle (ArchiveSettled (Resolved body))) s) = error s) /\
  (* replaced *)
  (forall err, error (state_after (handle (SummarySettled (Rejected err))) s)
               = "Failed to fetch dashboard data") /\
  (forall err, error (state_after (handle (CategoriesSettled (Rejected err))) s)
               = "Failed to fetch categories") /\
  (forall err, error (state_after (handle (ArchiveSettled (Rejected err))) s)
               = "Failed to delete category").
Proof.
  repeat split.
  - destruct s as [? ? ? ? ? ? [c|] ?]; reflexivity.
  - run_handler. rewrite Hok. reflexivity.
  - run_handler. rewrite Hok. reflexivity.
  - intros id [|]; reflexivity.
  - intros [[|] data]; reflexivity.
  - intros [[|] data]; reflexivity.
  - intros [[|]]; reflexivity.
Qed.

Lemma error_slot_witness :
  success (mkMutationBody true None None) = true /\
  error (state_after (handle CancelClicked) sample_state) = "" /\
  error (state_after (handle AddCategoryClicked) sample_state) = error sample_state.
Proof.
  split; [reflexivity|].
  pose proof (error_slot_transitions sample_state (mkMutationBody true None None) eq_refl) as H.
  split; [apply H | apply H].
Defined.

(* ================================================================== *)
(** * The arithmetic of the metrics *)

(** ** Powers of two and rounding *)

Lemma two_neq_0 : ~ (2 == 0)%Q.
Proof. discriminate. Qed.

Lemma pow2_pos e : (0 < pow2 e)%Q.
Proof. apply Qpower_0_lt. reflexivity. Qed.

Lemma pow2_add a b : (pow2 (a + b) == pow2 a * pow2 b)%Q.
Proof. apply Qpower_plus, two_neq_0. Qed.

Lemma pow2_inject e : 0 <= e -> (inject_Z (2 ^ e) == pow2 e)%Q.
Proof. intros H. apply Zpower_Qpower, H. Qed.

Lemma pow2_le a b : a <= b -> (pow2 a <= pow2 b)%Q.
Proof. intros H. apply Qpower_le_compat_l; [exact H | discriminate]. Qed.

Lemma pow2_lt a b : a < b -> (pow2 a < pow2 b)%Q.
Proof. intros H. apply Qpower_lt_compat_l; [exact H | reflexivity]. Qed.

Lemma pow2_lt_inv a b : (pow2 a < pow2 b)%Q -> a < b.
Proof. intros H. apply (Qpower_lt_compat_l_inv 2); [exact H | reflexivity]. Qed.

Lemma pow2_opp a : (pow2 a * pow2 (- a) == 1)%Q.
Proof.
  rewrite <- pow2_add. replace (a + - a) with 0 by lia. reflexivity.
Qed.

(** Scaling the two sides of a fraction by a power of two. *)
Lemma pow2_max_split e : (pow2 (Z.max 0 e) == pow2 e * pow2 (Z.max 0 (- e)))%Q.
Proof.
  rewrite <- pow2_add.
  replace (e + Z.max 0 (- e)) with (Z.max 0 e) by lia. reflexivity.
Qed.

Lemma inject_scaled n e :
  (inject_Z (n * 2 ^ Z.max 0 e) == inject_Z n * pow2 (Z.max 0 e))%Q.
Proof.
  rewrite inject_Z_mult, pow2_inject by lia. reflexivity.
Qed.

Lemma inject_Z_pos d : 0 < d -> (0 < inject_Z d)%Q.
Proof. intros H. unfold Qlt. simpl. lia. Qed.

(** Nearest integer, in Z. *)
Lemma rne_div_near n d :
  0 <= n -> 0 < d ->
  2 * n - d <= 2 * Number.rne_div n d * d <= 2 * n + d.
Proof.
  intros Hn Hd. unfold Number.rne_div.
  pose proof (Z.div_mod n d ltac:(lia)) as Hdm.
  pose proof (Z.mod_pos_bound n d Hd) as Hr.
  set (q := n / d) in *. set (r := n mod d) in *.
  destruct (Z.compare_spec (2 * r) d); [destruct (Z.even q)| |]; nia.
Qed.

Lemma rne_div_exact n : Number.rne_div n 1 = n.
Proof.
  unfold Number.rne_div. rewrite Z.mod_1_r, Z.div_1_r. reflexivity.
Qed.

(** Moving an integer inequality to Q. *)
Ltac to_Q H :=
  first [rewrite Zle_Qle in H | rewrite Zlt_Qlt in H | apply inject_Z_injective in H];
  unfold Z.sub in H;
  repeat (rewrite inject_Z_plus in H || rewrite inject_Z_mult in H
          || rewrite inject_Z_opp in H);
  repeat match type of H with
         | context [inject_Z (Zpos ?p)] => change (inject_Z (Zpos p)) with (Zpos p # 1)%Q in H
         | context [inject_Z 0] => change (inject_Z 0) with 0%Q in H
         end.

(** The same in Q. *)
Lemma rne_div_near_Q n d :
  0 <= n -> 0 < d ->
  (inject_Z n / inject_Z d - (1 # 2) <= inject_Z (Number.rne_div n d))%Q /\
  (inject_Z (Number.rne_div n d) <= inject_Z n / inject_Z d + (1 # 2))%Q.
Proof.
  intros Hn Hd. pose proof (rne_div_near n d Hn Hd) as [H1 H2].
  assert (HdQ : (0 < inject_Z d)%Q) by (apply inject_Z_pos; exact Hd).
  to_Q H1. to_Q H2.
  assert (E : (inject_Z n == inject_Z n / inject_Z d * inject_Z d)%Q) by (field; lra).
  generalize dependent (inject_Z (Number.rne_div n d)). intros M H1 H2.
  generalize dependent (inject_Z n / inject_Z d)%Q. intros R E.
  generalize dependent (inject_Z n). intros N H1 H2 E.
  generalize dependent (inject_Z d). intros D HdQ H1 H2 E.
  split.
  - apply Qnot_lt_le. intros C.
    assert ((M * D < (R - (1#2)) * D)%Q) by (apply Qmult_lt_compat_r; assumption).
    lra.
  - apply Qnot_lt_le. intros C.
    assert (((R + (1#2)) * D < M * D)%Q) by (apply Qmult_lt_compat_r; assumption).
    lra.
Qed.

Lemma log2_bounds_Q n :
  0 < n -> (pow2 (Z.log2 n) <= inject_Z n)%Q /\ (inject_Z n < pow2 (Z.log2 n + 1))%Q.
Proof.
  intros Hn. pose proof (Z.log2_spec n Hn) as [H1 H2].
  pose proof (Z.log2_nonneg n) as H0.
  split.
  - rewrite <- pow2_inject by lia. rewrite <- Zle_Qle. exact H1.
  - rewrite <- pow2_inject by lia. rewrite <- Zlt_Qlt. exact H2.
Qed.

Lemma ulp_exponent_spec n d :
  0 < n -> 0 < d ->
  exists e0, Number.ulp_exponent n d = Z.max e0 (-1074) /\
    (pow2 (e0 + 52) * inject_Z d <= inject_Z n)%Q /\
    (inject_Z n < pow2 (e0 + 53) * inject_Z d)%Q.
Proof.
  intros Hn Hd. unfold Number.ulp_exponent.
  destruct (log2_bounds_Q n Hn) as [Ln Un]. destruct (log2_bounds_Q d Hd) as [Ld Ud].
  set (k := Z.log2 n - Z.log2 d).
  pose proof (pow2_max_split k) as Hsplit.
  pose proof (pow2_pos (Z.max 0 (- k))) as HP1.
  pose proof (pow2_pos k) as HPk.
  pose proof (inject_Z_pos d Hd) as HD.
  destruct (Z.ltb_spec (n * 2 ^ Z.max 0 (- k)) (d * 2 ^ Z.max 0 k)) as [Hlt | Hge].
  - exists (k - 53). split; [reflexivity|].
    replace (k - 53 + 52) with (k - 1) by lia. replace (k - 53 + 53) with k by lia.
    rewrite Zlt_Qlt, !inject_scaled, Hsplit in Hlt.
    assert (E : (pow2 (Z.log2 n) == pow2 (k - 1) * pow2 (Z.log2 d + 1))%Q).
    { rewrite <- pow2_add. replace (k - 1 + (Z.log2 d + 1)) with (Z.log2 n) by lia.
      reflexivity. }
    pose proof (pow2_pos (k - 1)) as HPk1.
    split.
    + apply Qle_trans with (pow2 (k - 1) * pow2 (Z.log2 d + 1))%Q.
      * apply Qlt_le_weak. rewrite !(Qmult_comm (pow2 (k - 1))).
        apply Qmult_lt_compat_r; assumption.
      * rewrite <- E. exact Ln.
    + apply (Qmult_lt_r _ _ (pow2 (Z.max 0 (- k)))); [exact HP1|].
      setoid_replace (pow2 k * inject_Z d * pow2 (Z.max 0 (- k)))%Q
        with (inject_Z d * (pow2 k * pow2 (Z.max 0 (- k))))%Q by ring.
      exact Hlt.
  - exists (k - 52). split; [reflexivity|].
    replace (k - 52 + 52) with k by lia. replace (k - 52 + 53) with (k + 1) by lia.
    rewrite Zle_Qle, !inject_scaled, Hsplit in Hge.
    assert (E : (pow2 (Z.log2 n + 1) == pow2 (k + 1) * pow2 (Z.log2 d))%Q).
    { rewrite <- pow2_add. replace (k + 1 + Z.log2 d) with (Z.log2 n + 1) by lia.
      reflexivity. }
    pose proof (pow2_pos (k + 1)) as HPk1.
    split.
    + apply (Qmult_le_r _ _ (pow2 (Z.max 0 (- k)))); [exact HP1|].
      setoid_replace (pow2 k * inject_Z d * pow2 (Z.max 0 (- k)))%Q
        with (inject_Z d * (pow2 k * pow2 (Z.max 0 (- k))))%Q by ring.
      exact Hge.
    + apply Qlt_le_trans with (pow2 (k + 1) * pow2 (Z.log2 d))%Q.
      * rewrite <- E. exact Un.
      * rewrite !(Qmult_comm (pow2 (k + 1))).
        apply Qmult_le_compat_r; [assumption | apply Qlt_le_weak; assumption].
Qed.

Lemma scaled_ratio n d e :
  0 < d ->
  (inject_Z (n * 2 ^ Z.max 0 (- e)) / inject_Z (d * 2 ^ Z.max 0 e) * pow2 e
   == inject_Z n / inject_Z d)%Q.
Proof.
  intros Hd. rewrite !inject_scaled.
  pose proof (pow2_max_split e) as Hs. rewrite Hs.
  pose proof (pow2_pos (Z.max 0 (- e))). pose proof (pow2_pos e).
  pose proof (inject_Z_pos d Hd).
  field. repeat split; lra.
Qed.

Lemma round_pos_spec n d :
  0 < n -> 0 < d ->
  (pow2 (-1022) * inject_Z d <= inject_Z n)%Q ->
  (inject_Z n < pow2 1023 * inject_Z d)%Q ->
  exists x, Number.round_pos n d = Some x /\ 0 < Number.mant x /\
    (inject_Z n / inject_Z d * (1 - eps) <= value x)%Q /\
    (value x <= inject_Z n / inject_Z d * (1 + eps))%Q.
Proof.
  intros Hn Hd Hlo Hhi.
  destruct (ulp_exponent_spec n d Hn Hd) as (e0 & He & Hlow & Hupp).
  pose proof (inject_Z_pos d Hd) as HD.
  assert (Hnorm : - 1074 <= e0).
  { assert (pow2 (-1022) < pow2 (e0 + 53))%Q.
    { apply (Qmult_lt_r _ _ (inject_Z d)); [exact HD|].
      eapply Qle_lt_trans; eassumption. }
    apply pow2_lt_inv in H. lia. }
  assert (Hfin : e0 < 971).
  { assert (pow2 (e0 + 52) < pow2 1023)%Q.
    { apply (Qmult_lt_r _ _ (inject_Z d)); [exact HD|].
      eapply Qle_lt_trans; eassumption. }
    apply pow2_lt_inv in H. lia. }
  replace (Z.max e0 (-1074)) with e0 in He by lia.
  unfold Number.round_pos. rewrite He.
  destruct (Z.ltb_spec 971 e0) as [|_]; [lia|].
  destruct (Z.eqb_spec e0 971) as [|_]; [lia|].
  cbn [orb andb].
  eexists. split; [reflexivity|].
  set (Ns := n * 2 ^ Z.max 0 (- e0)). set (Ds := d * 2 ^ Z.max 0 e0).
  assert (HNs : 0 <= Ns) by (unfold Ns; apply Z.mul_nonneg_nonneg; [lia | apply Z.pow_nonneg; lia]).
  assert (HDs : 0 < Ds) by (unfold Ds; apply Z.mul_pos_pos; [lia | apply Z.pow_pos_nonneg; lia]).
  destruct (rne_div_near_Q Ns Ds HNs HDs) as [Hm1 Hm2].
  pose proof (scaled_ratio n d e0 Hd) as Hr. fold Ns Ds in Hr.
  unfold value. cbn [Number.mant Number.expo].
  assert (Hp : (pow2 (e0 + 52) == pow2 e0 * 4503599627370496)%Q).
  { rewrite pow2_add. reflexivity. }
  rewrite Hp in Hlow.
  pose proof (pow2_pos e0) as HP.
  assert (Hv : (inject_Z n == inject_Z n / inject_Z d * inject_Z d)%Q) by (field; lra).
  set (M := inject_Z (Number.rne_div Ns Ds)) in *.
  assert (HM : (0 < M)%Q -> 0 < Number.rne_div Ns Ds).
  { unfold M. intros H. rewrite Zlt_Qlt. exact H. }
  clearbody M.
  set (R := (inject_Z Ns / inject_Z Ds)%Q) in *. clearbody R.
  set (v := (inject_Z n / inject_Z d)%Q) in *. clearbody v.
  set (P := pow2 e0) in *. clearbody P.
  set (D := inject_Z d) in *. clearbody D.
  set (N := inject_Z n) in *. clearbody N.
  clear Hp Hlo Hhi Hupp.
  assert (Hlow' : (P * 4503599627370496 <= v)%Q).
  { apply Qnot_lt_le. intros C.
    assert (v * D < P * 4503599627370496 * D)%Q by (apply Qmult_lt_compat_r; assumption).
    lra. }
  assert (H1 : ((R - (1#2)) * P <= M * P)%Q)
    by (apply Qmult_le_compat_r; [assumption | lra]).
  assert (H2 : (M * P <= (R + (1#2)) * P)%Q)
    by (apply Qmult_le_compat_r; [assumption | lra]).
  unfold eps.
  split; [|split].
  - apply HM. apply Qnot_le_lt. intros C.
    assert (M * P <= 0 * P)%Q by (apply Qmult_le_compat_r; [assumption | lra]).
    lra.
  - lra.
  - lra.
Qed.

Lemma round_of_pos n d : 0 < n -> Number.round n d = Number.round_pos n d.
Proof. intros H. destruct n; [lia | reflexivity | lia]. Qed.

Lemma round_spec n d v :
  0 < n -> 0 < d -> (v == inject_Z n / inject_Z d)%Q ->
  (pow2 (-1022) <= v)%Q -> (v < pow2 1023)%Q ->
  exists x, Number.round n d = Some x /\ 0 < Number.mant x /\
    (v * (1 - eps) <= value x)%Q /\ (value x <= v * (1 + eps))%Q.
Proof.
  intros Hn Hd Hv Hlo Hhi.
  pose proof (inject_Z_pos d Hd) as HD.
  assert (E : (inject_Z n == v * inject_Z d)%Q) by (rewrite Hv; field; lra).
  rewrite round_of_pos by exact Hn.
  destruct (round_pos_spec n d Hn Hd) as (x & Hx & Hm & H1 & H2).
  - rewrite E. apply Qmult_le_compat_r; [exact Hlo | lra].
  - rewrite E. apply Qmult_lt_compat_r; [exact HD | exact Hhi].
  - exists x. rewrite Hv. auto.
Qed.

Lemma scaled_ratio' n d e :
  0 < d ->
  (inject_Z (n * 2 ^ Z.max 0 e) / inject_Z (d * 2 ^ Z.max 0 (- e))
   == inject_Z n / inject_Z d * pow2 e)%Q.
Proof.
  intros Hd. rewrite !inject_scaled.
  pose proof (pow2_max_split e) as Hs. rewrite Hs.
  pose proof (pow2_pos (Z.max 0 (- e))). pose proof (pow2_pos e).
  pose proof (inject_Z_pos d Hd).
  field. repeat split; lra.
Qed.

(** An integer below [2 ^ 53] is a number. *)
Lemma of_Z_exact a :
  0 < a < 2 ^ 53 ->
  exists x, Number.of_Z a = Some x /\ 0 < Number.mant x /\ (value x == inject_Z a)%Q.
Proof.
  intros [Ha Hb]. unfold Number.of_Z. rewrite round_of_pos by exact Ha.
  destruct (ulp_exponent_spec a 1 Ha ltac:(lia)) as (e0 & He & Hlow & Hupp).
  change (inject_Z 1) with 1%Q in *. rewrite Qmult_1_r in Hlow, Hupp.
  assert (H1 : (1 <= inject_Z a)%Q) by (change 1%Q with (inject_Z 1); rewrite <- Zle_Qle; lia).
  assert (H2 : (inject_Z a < pow2 53)%Q).
  { rewrite <- pow2_inject by lia. rewrite <- Zlt_Qlt. exact Hb. }
  assert (- 53 < e0).
  { assert (pow2 0 < pow2 (e0 + 53))%Q by (change (pow2 0) with 1%Q; lra).
    apply pow2_lt_inv in H. lia. }
  assert (e0 <= 0).
  { assert (pow2 (e0 + 52) < pow2 53)%Q by lra.
    apply pow2_lt_inv in H0. lia. }
  replace (Z.max e0 (-1074)) with e0 in He by lia.
  unfold Number.round_pos. rewrite He.
  destruct (Z.ltb_spec 971 e0) as [|_]; [lia|].
  destruct (Z.eqb_spec e0 971) as [|_]; [lia|].
  cbn [orb andb].
  replace (Z.max 0 e0) with 0 by lia. replace (Z.max 0 (- e0)) with (- e0) by lia.
  change (1 * 2 ^ 0) with 1. rewrite rne_div_exact.
  eexists. split; [reflexivity|]. cbn [Number.mant Number.expo]. split.
  - apply Z.mul_pos_pos; [lia | apply Z.pow_pos_nonneg; lia].
  - unfold value. cbn [Number.mant Number.expo].
    rewrite inject_Z_mult, pow2_inject by lia.
    rewrite <- Qmult_assoc, (Qmult_comm (pow2 (- e0))), pow2_opp. ring.
Qed.

Lemma div_spec x y v :
  0 < Number.mant x -> 0 < Number.mant y ->
  (v == value x / value y)%Q ->
  (pow2 (-1022) <= v)%Q -> (v < pow2 1023)%Q ->
  exists z, Number.div (Some x) (Some y) = Some z /\ 0 < Number.mant z /\
    (v * (1 - eps) <= value z)%Q /\ (value z <= v * (1 + eps))%Q.
Proof.
  intros Hx Hy Hv Hlo Hhi. unfold Number.div.
  destruct (Z.eqb_spec (Number.mant y) 0) as [|_]; [lia|].
  rewrite Z.sgn_pos, Z.abs_eq, Z.mul_1_l by lia.
  apply round_spec; try assumption.
  - apply Z.mul_pos_pos; [lia | apply Z.pow_pos_nonneg; lia].
  - apply Z.mul_pos_pos; [lia | apply Z.pow_pos_nonneg; lia].
  - rewrite Hv, scaled_ratio' by exact Hy. unfold value.
    pose proof (pow2_pos (Number.expo y)). pose proof (inject_Z_pos _ Hy).
    unfold Z.sub. rewrite pow2_add.
    pose proof (pow2_opp (Number.expo y)) as Ho.
    pose proof (pow2_pos (- Number.expo y)).
    setoid_replace (pow2 (- Number.expo y)) with (/ pow2 (Number.expo y))%Q.
    + field. split; lra.
    + apply (Qmult_inj_l _ _ (pow2 (Number.expo y))); [lra|].
      rewrite Ho. field. lra.
Qed.

Lemma mul_spec x y v :
  0 < Number.mant x -> 0 < Number.mant y ->
  (v == value x * value y)%Q ->
  (pow2 (-1022) <= v)%Q -> (v < pow2 1023)%Q ->
  exists z, Number.mul (Some x) (Some y) = Some z /\ 0 < Number.mant z /\
    (v * (1 - eps) <= value z)%Q /\ (value z <= v * (1 + eps))%Q.
Proof.
  intros Hx Hy Hv Hlo Hhi. unfold Number.mul.
  apply round_spec; try assumption.
  - apply Z.mul_pos_pos; [apply Z.mul_pos_pos; lia | apply Z.pow_pos_nonneg; lia].
  - apply Z.pow_pos_nonneg; lia.
  - rewrite <- (Z.mul_1_l (2 ^ Z.max 0 (- (Number.expo x + Number.expo y)))).
    rewrite Hv, scaled_ratio' by lia. unfold value.
    rewrite pow2_add, inject_Z_mult. change (inject_Z 1) with 1%Q. field.
Qed.

(** [Math.round] is [floor (x + 1/2)]. *)
Lemma Math_round_spec x :
  exists z, Number.Math_round (Some x) = Some z /\
    (inject_Z z <= value x + (1 # 2))%Q /\ (value x + (1 # 2) < inject_Z z + 1)%Q.
Proof.
  unfold Number.Math_round, value. destruct x as [m e]. cbn [Number.mant Number.expo].
  eexists. split; [reflexivity|].
  destruct (Z.leb_spec 0 e) as [He | He].
  - rewrite inject_Z_mult, pow2_inject by exact He. split; lra.
  - set (k := - e). assert (Hk : 0 < k) by lia.
    assert (HB : 0 < 2 ^ k) by (apply Z.pow_pos_nonneg; lia).
    assert (Hh : 2 * 2 ^ (k - 1) = 2 ^ k).
    { rewrite <- Z.pow_succ_r by lia. f_equal. lia. }
    replace (- e - 1) with (k - 1) by lia.
    set (h := 2 ^ (k - 1)) in *. set (B := 2 ^ k) in *.
    pose proof (Z.mul_div_le (m + h) B HB) as H1.
    pose proof (Z.mul_succ_div_gt (m + h) B HB) as H2.
    set (z := (m + h) / B) in *.
    assert (HP : (pow2 e * inject_Z B == 1)%Q).
    { unfold B. rewrite pow2_inject by lia. unfold k. apply pow2_opp. }
    unfold Z.succ in H2.
    to_Q H1. to_Q H2. to_Q Hh.
    pose proof (inject_Z_pos B HB) as HBQ.
    pose proof (pow2_pos e) as HPe.
    set (BQ := inject_Z B) in *. clearbody BQ.
    set (P := pow2 e) in *. clearbody P.
    set (M := inject_Z m) in *. clearbody M.
    set (Zq := inject_Z z) in *. clearbody Zq.
    set (H := inject_Z h) in *. clearbody H.
    split.
    + apply (Qmult_le_r _ _ BQ); [exact HBQ|].
      setoid_replace ((M * P + (1 # 2)) * BQ)%Q with (M * (P * BQ) + (1 # 2) * BQ)%Q by ring.
      rewrite HP. lra.
    + apply (Qmult_lt_r _ _ BQ); [exact HBQ|].
      setoid_replace ((M * P + (1 # 2)) * BQ)%Q with (M * (P * BQ) + (1 # 2) * BQ)%Q by ring.
      rewrite HP. lra.
Qed.

Lemma tiny_le : (pow2 (-1022) <= 1 # 18014398509481984)%Q.
Proof. change (1 # 18014398509481984)%Q with (pow2 (-54)). apply pow2_le. lia. Qed.

Lemma huge_ge : (1152921504606846976 <= pow2 1023)%Q.
Proof. change 1152921504606846976%Q with (pow2 60). apply pow2_le. lia. Qed.

Lemma inverse_bounds t :
  0 < t < 2 ^ 53 ->
  (inject_Z t * / inject_Z t == 1)%Q /\
  ((1 # 9007199254740992) < / inject_Z t)%Q /\ (/ inject_Z t <= 1)%Q.
Proof.
  intros [H1 H2].
  pose proof (inject_Z_pos t H1) as HT.
  assert (HT1 : (1 <= inject_Z t)%Q) by (change 1%Q with (inject_Z 1); rewrite <- Zle_Qle; lia).
  assert (HT2 : (inject_Z t < 9007199254740992)%Q)
    by (change 9007199254740992%Q with (inject_Z (2 ^ 53)); rewrite <- Zlt_Qlt; lia).
  assert (Hi : (0 < / inject_Z t)%Q) by (apply Qinv_lt_0_compat; exact HT).
  assert (E : (inject_Z t * / inject_Z t == 1)%Q) by (apply Qmult_inv_r; lra).
  set (T := inject_Z t) in *. clearbody T. set (iT := (/ T)%Q) in *. clearbody iT.
  split; [exact E|]. split.
  - assert (T * iT < 9007199254740992 * iT)%Q by (apply Qmult_lt_compat_r; assumption).
    lra.
  - assert (1 * iT <= T * iT)%Q by (apply Qmult_le_compat_r; [assumption | lra]).
    lra.
Qed.

Lemma round_percent_value a t :
  0 < a <= 2 ^ 44 -> 0 < t < 2 ^ 53 ->
  exists x,
    Number.mul (Number.div (Number.of_Z a) (Number.of_Z t)) (Number.of_Z 100) = Some x /\
    (100 * (inject_Z a * / inject_Z t) - (1 # 2) * / inject_Z t < value x)%Q /\
    (value x < 100 * (inject_Z a * / inject_Z t) + (1 # 2) * / inject_Z t)%Q.
Proof.
  intros Ha Ht.
  destruct (of_Z_exact a) as (xa & Ea & Hma & Va); [lia|].
  destruct (of_Z_exact t) as (xt & Et & Hmt & Vt); [lia|].
  destruct (of_Z_exact 100) as (xc & Ec & Hmc & Vc); [lia|].
  rewrite Ea, Et, Ec.
  destruct (inverse_bounds t Ht) as (HTi & Hi1 & Hi2).
  assert (HA1 : (1 <= inject_Z a)%Q) by (change 1%Q with (inject_Z 1); rewrite <- Zle_Qle; lia).
  assert (HA2 : (inject_Z a <= 17592186044416)%Q)
    by (change 17592186044416%Q with (inject_Z (2 ^ 44)); rewrite <- Zle_Qle; lia).
  pose proof tiny_le as Htiny. pose proof huge_ge as Hhuge.
  set (v := (inject_Z a * / inject_Z t)%Q).
  assert (Hv1 : (1 * / inject_Z t <= v)%Q)
    by (apply Qmult_le_compat_r; [exact HA1 | lra]).
  assert (Hv2 : (v <= 17592186044416 * / inject_Z t)%Q)
    by (apply Qmult_le_compat_r; [exact HA2 | lra]).
  destruct (div_spec xa xt v Hma Hmt) as (q & Eq & Hmq & Hq1 & Hq2).
  { rewrite Va, Vt. reflexivity. }
  { lra. }
  { lra. }
  rewrite Eq.
  unfold eps in *.
  destruct (mul_spec q xc (value q * 100)%Q Hmq Hmc) as (p & Ep & Hmp & Hp1 & Hp2).
  { rewrite Vc. reflexivity. }
  { lra. }
  { lra. }
  exists p. split; [exact Ep|].
  unfold eps in *. split; lra.
Qed.

Lemma inject_Z_lt_inv x y : (inject_Z x < inject_Z y + 1)%Q -> x <= y.
Proof.
  intros H. change 1%Q with (inject_Z 1) in H. rewrite <- inject_Z_plus, <- Zlt_Qlt in H. lia.
Qed.

Lemma round_percent_zero t : 0 < t < 2 ^ 53 -> round_percent 0 t = Some 0.
Proof.
  intros Ht. unfold round_percent.
  destruct (of_Z_exact t Ht) as (xt & Et & Hmt & _). rewrite Et.
  change (Number.of_Z 0) with (Some (Number.mk 0 0)).
  unfold Number.div. cbn [Number.mant Number.expo].
  destruct (Z.eqb_spec (Number.mant xt) 0) as [|_]; [lia|].
  rewrite Z.mul_0_r, Z.mul_0_l. reflexivity.
Qed.

Lemma round_percent_spec a t :
  0 <= a <= 2 ^ 44 -> 0 < t < 2 ^ 53 ->
  exists z, round_percent a t = Some z /\
    (~ half_way (100 * a) t -> z = round_half_up (100 * a) t) /\
    (half_way (100 * a) t ->
       z = round_half_up (100 * a) t \/ z = round_half_up (100 * a) t - 1).
Proof.
  intros Ha Ht. unfold half_way, round_half_up.
  assert (Ht2 : 0 < 2 * t) by lia.
  pose proof (Z.div_mod (2 * (100 * a) + t) (2 * t) ltac:(lia)) as Hdm.
  pose proof (Z.mod_pos_bound (2 * (100 * a) + t) (2 * t) Ht2) as Hr.
  set (s := (2 * (100 * a) + t) / (2 * t)) in *.
  set (r := (2 * (100 * a) + t) mod (2 * t)) in *.
  destruct (Z.eq_dec a 0) as [-> | Hne].
  - exists 0. split; [apply round_percent_zero; exact Ht|].
    assert (s = 0) by nia. split; intros; [lia|]. left; lia.
  - destruct (round_percent_value a t ltac:(lia) Ht) as (x & Ex & Hx1 & Hx2).
    unfold round_percent. rewrite Ex.
    destruct (Math_round_spec x) as (z & Ez & Hz1 & Hz2).
    exists z. split; [exact Ez|].
    destruct (inverse_bounds t Ht) as (HTi & Hi1 & Hi2).
    destruct Hr as [Hr1 Hr2].
    assert (Hr3 : r <= 2 * t - 1) by lia.
    assert (Hr4 : r <> 0 -> 1 <= r) by lia.
    to_Q Hdm. to_Q Hr3. rewrite Zle_Qle in Hr4. change (inject_Z 1) with 1%Q in Hr4.
    clear Ex Ez.
    set (iT := (/ inject_Z t)%Q) in *. clearbody iT.
    set (T := inject_Z t) in *. clearbody T.
    set (A := inject_Z a) in *. clearbody A.
    set (P := value x) in *. clearbody P.
    set (R := inject_Z r) in *.
    set (S := inject_Z s) in *.
    set (d := ((1 # 2) * iT)%Q) in *.
    (* 100 a / t + 1/2 = s + r / (2 t) *)
    assert (Hu : (100 * (A * iT) + (1 # 2) == S + R * d)%Q).
    { setoid_replace (100 * (A * iT) + (1 # 2))%Q
        with ((2 * (100 * A) + T) * d + (1 # 2) * (1 - T * iT))%Q by (unfold d; ring).
      rewrite Hdm, HTi.
      setoid_replace ((2 * T * S + R) * d + (1 # 2) * (1 - 1))%Q
        with (S * (T * iT) + R * d)%Q by (unfold d; ring).
      rewrite HTi. ring. }
    assert (Hd : (0 < d)%Q) by (unfold d; lra).
    assert (Hd2 : (d <= 1 # 2)%Q) by (unfold d; lra).
    assert (Hone : ((2 * T - 1) * d == 1 - d)%Q).
    { setoid_replace ((2 * T - 1) * d)%Q with (T * iT - d)%Q by (unfold d; ring).
      rewrite HTi. reflexivity. }
    assert (Hrho2 : (R * d <= (2 * T - 1) * d)%Q).
    { apply Qmult_le_compat_r; [|lra]. lra. }
    clearbody d.
    split.
    + intros Hnt.
      assert (Hrho1 : (1 * d <= R * d)%Q).
      { apply Qmult_le_compat_r; [|lra]. apply Hr4. exact Hnt. }
      clearbody R.
      assert (z <= s) by (apply inject_Z_lt_inv; fold S; lra).
      assert (s <= z) by (apply inject_Z_lt_inv; fold S; lra).
      lia.
    + intros Htie. unfold R in Hu. rewrite Htie in Hu. change (inject_Z 0) with 0%Q in Hu.
      clearbody R.
      assert (z <= s) by (apply inject_Z_lt_inv; fold S; lra).
      assert (s - 1 <= z).
      { apply inject_Z_lt_inv. unfold Z.sub. rewrite inject_Z_plus.
        rewrite inject_Z_opp. change (inject_Z 1) with 1%Q. fold S. lra. }
      lia.
Qed.

(** ** The derived metrics *)

(** [Number] computes what binary64 arithmetic computes: on all pairs of
    counts below 32 and on the inputs used in the statements below, the
    product [(a / t) * 100] of the model is the number the machine's
    binary64 operations give; a zero divisor and an overflow give no
    finite number. *)
Lemma number_agrees_with_binary64 :
  agree_up_to 32 = true /\
  binary64_product 23 40 = S754_finite false 8092405580431359 (-47) /\
  Number.mul (Number.div (Number.of_Z 23) (Number.of_Z 40)) (Number.of_Z 100)
    = Some (Number.mk 8092405580431359 (-47)) /\
  same_number
    (Number.mul (Number.div (Number.of_Z 31311904815800) (Number.of_Z 45710809950073))
                (Number.of_Z 100))
    (binary64_product 31311904815800 45710809950073) = true /\
  same_number (Number.div (Number.of_Z 1) (Number.of_Z 0))
              (Prim2SF (PrimFloat.div (PrimFloat.of_uint63 1) (PrimFloat.of_uint63 0))) = true /\
  same_number (Number.of_Z (2 ^ 1024)) (Prim2SF PrimFloat.infinity) = true.
Proof.
  repeat match goal with |- _ /\ _ => split end; vm_compute; reflexivity.
Qed.

(** The same for quotients and products in the subnormal range, at the
    overflow threshold and with negative operands, against the
    operations of [SpecFloat]. *)
Lemma number_agrees_at_the_ends_of_the_range :
  forallb (fun q => let '(m1, e1, m2, e2) := q in same_div_mul m1 e1 m2 e2)
    [ (3, 0, 7, 0); (3, -1000, 7, 60); (3, -1000, 7, 100);
      (2 ^ 53 - 1, 900, 7, -100); (2 ^ 53 - 1, 971, 2 ^ 53 - 1, -52);
      (2 ^ 53 - 1, 971, 2 ^ 53 - 2, -52); (2 ^ 53 - 1, 971, 2, -1);
      (-5, -1074, 3, 0); (5, -1074, -3, 0); (5, -1074, 2, 0); (3, -1074, 2, 0);
      (1, -1074, 2, 0); (1, -600, 1, -600); (2 ^ 52 + 1, -1074, 1, 1);
      (1, 512, 1, 512); (2 ^ 53 - 1, 0, 2 ^ 53 - 1, 0); (-7, 3, -9, -2) ] = true.
Proof. vm_compute. reflexivity. Qed.

(** C6, as the specification states it, fails.  With 23 of 40 books
    available the exact percentage is 57.5 and rounds to 58; the component
    shows 57, because [23 / 40] is rounded to a binary64 value below
    0.575 and the product with 100, rounded again, stays below 57.5. *)
Lemma availability_23_of_40_is_57 :
  availabilityPercentage (mkDashboardStats 40 23 0 0) = Some 57 /\
  availability_percentage_spec (mkDashboardStats 40 23 0 0) = 58 /\
  2 * (100 * 23) = (2 * 57 + 1) * 40 /\
  availabilityPercentage (mkDashboardStats 40 23 0 0)
    <> Some (availability_percentage_spec (mkDashboardStats 40 23 0 0)).
Proof.
  repeat match goal with |- _ /\ _ => split end; vm_compute; congruence.
Qed.

(** Beyond about [2 ^ 44.8] the same happens away from the halfway
    cases: here the exact percentage is below 68.5 and the component
    shows 69. *)
Lemma large_counts_round_across_half :
  ~ half_way (100 * 31311904815800) 45710809950073 /\
  availabilityPercentage (mkDashboardStats 45710809950073 31311904815800 0 0) = Some 69 /\
  availability_percentage_spec (mkDashboardStats 45710809950073 31311904815800 0 0) = 68.
Proof.
  repeat match goal with |- _ /\ _ => split end; vm_compute; congruence.
Qed.

Lemma availabilityPercentage_unfold (s : DashboardStats) :
  availabilityPercentage s =
  if 0 <? total_books s then round_percent (available_books s) (total_books s) else Some 0.
Proof. reflexivity. Qed.

Lemma usageRate_unfold (s : DashboardStats) :
  usageRate s = round_percent (total_transactions s) (Z.max (total_books s) 1).
Proof. reflexivity. Qed.

Lemma half_way_dec (n d : Z) : {half_way n d} + {~ half_way n d}.
Proof. unfold half_way. apply Z.eq_dec. Qed.

(** C6, amended.  The metrics are functions of the counts alone.  For
    non-negative integer counts with [total_books < 2 ^ 53] and
    [available_books], [total_transactions] at most [2 ^ 44]:
    the availability percentage is 0 when [total_books = 0] (nothing is
    divided), and otherwise it is [Math.round] of the binary64 product
    [(available_books / total_books) * 100], which is the exact
    [round(100 * available_books / total_books)] whenever that quotient is
    not halfway between two integers, and is that value or one less when
    it is; the usage rate relates in the same way to the exact
    [round(100 * total_transactions / max(total_books, 1))]. *)
Theorem metrics_round_the_binary64_product
  (s : DashboardStats)
  (Htotal : 0 <= total_books s < 2 ^ 53)
  (Havailable : 0 <= available_books s <= 2 ^ 44)
  (Htransactions : 0 <= total_transactions s <= 2 ^ 44) :
  (total_books s = 0 -> availabilityPercentage s = Some 0) /\
  (exists p,
      availabilityPercentage s = Some p /\
      (~ half_way (100 * available_books s) (total_books s) ->
         p = availability_percentage_spec s) /\
      (p = availability_percentage_spec s \/ p = availability_percentage_spec s - 1)) /\
  (exists u,
      usageRate s = Some u /\
      (~ half_way (100 * total_transactions s) (Z.max (total_books s) 1) ->
         u = usage_rate_spec s) /\
      (u = usage_rate_spec s \/ u = usage_rate_spec s - 1)) /\
  (forall s',
      total_books s' = total_books s ->
      (available_books s' = available_books s ->
         availabilityPercentage s' = availabilityPercentage s) /\
      (total_transactions s' = total_transactions s -> usageRate s' = usageRate s)).
Proof.
  split; [|split; [|split]].
  - intros H0. rewrite availabilityPercentage_unfold, H0. reflexivity.
  - rewrite availabilityPercentage_unfold. unfold availability_percentage_spec.
    destruct (Z.ltb_spec 0 (total_books s)) as [Hpos | Hzero].
    + destruct (round_percent_spec (available_books s) (total_books s)) as (p & Ep & Hn & Ht);
        [lia | lia |].
      exists p. split; [exact Ep|]. split; [exact Hn|].
      destruct (half_way_dec (100 * available_books s) (total_books s)) as [Hw | Hw];
        [apply Ht, Hw | left; apply Hn, Hw].
    + exists 0. repeat split. left; reflexivity.
  - rewrite usageRate_unfold. unfold usage_rate_spec.
    destruct (round_percent_spec (total_transactions s) (Z.max (total_books s) 1))
      as (u & Eu & Hn & Ht); [lia | lia |].
    exists u. split; [exact Eu|]. split; [exact Hn|].
    destruct (half_way_dec (100 * total_transactions s) (Z.max (total_books s) 1)) as [Hw | Hw];
      [apply Ht, Hw | left; apply Hn, Hw].
  - intros s' Ht. split; intros Ha.
    + rewrite !availabilityPercentage_unfold, Ht, Ha. reflexivity.
    + rewrite !usageRate_unfold, Ht, Ha. reflexivity.
Qed.

Lemma metrics_witness :
  0 <= total_books (mkDashboardStats 100 45 12 230) < 2 ^ 53 /\
  0 <= available_books (mkDashboardStats 100 45 12 230) <= 2 ^ 44 /\
  0 <= total_transactions (mkDashboardStats 100 45 12 230) <= 2 ^ 44 /\
  exists p,
    availabilityPercentage (mkDashboardStats 100 45 12 230) = Some p /\
    (~ half_way (100 * 45) 100 -> p = availability_percentage_spec (mkDashboardStats 100 45 12 230)) /\
    (p = availability_percentage_spec (mkDashboardStats 100 45 12 230) \/
     p = availability_percentage_spec (mkDashboardStats 100 45 12 230) - 1).
Proof.
  assert (H1 : 0 <= total_books (mkDashboardStats 100 45 12 230) < 2 ^ 53) by (simpl; lia).
  assert (H2 : 0 <= available_books (mkDashboardStats 100 45 12 230) <= 2 ^ 44) by (simpl; lia).
  assert (H3 : 0 <= total_transactions (mkDashboardStats 100 45 12 230) <= 2 ^ 44) by (simpl; lia).
  split; [exact H1|]. split; [exact H2|]. split; [exact H3|].
  apply (metrics_round_the_binary64_product (mkDashboardStats 100 45 12 230) H1 H2 H3).
Defined.

(** ** Labels *)

(** C7.  The three-level label is "Needs Attention" below 40, "Good"
    from 40 up to 69 and "Excellent" from 70 on; the two-level label is
    "well-stocked" from 50 on and "getting busy" below.  Both are
    functions of the same percentage, so a value such as 45 is "Good" and
    "getting busy" at once.  With 45 of 100 books available the
    percentage is 45 and the label "Good" (55 borrowed); with no book at
    all the percentage is 0 and the label "Needs Attention" (0
    borrowed). *)
Theorem availability_labels (p : Z) :
  (p < 40 -> healthLabel p = "Needs Attention") /\
  (40 <= p < 70 -> healthLabel p = "Good") /\
  (70 <= p -> healthLabel p = "Excellent") /\
  (50 <= p -> stockLabel p = "well-stocked") /\
  (p < 50 -> stockLabel p = "getting busy") /\
  (40 <= p < 50 -> healthLabel p = "Good" /\ stockLabel p = "getting busy") /\
  availabilityPercentage (mkDashboardStats 100 45 0 0) = Some 45 /\
  option_map healthLabel (availabilityPercentage (mkDashboardStats 100 45 0 0)) = Some "Good" /\
  borrowedBooks (mkDashboardStats 100 45 0 0) = 55 /\
  availabilityPercentage (mkDashboardStats 0 0 0 0) = Some 0 /\
  option_map healthLabel (availabilityPercentage (mkDashboardStats 0 0 0 0))
    = Some "Needs Attention" /\
  borrowedBooks (mkDashboardStats 0 0 0 0) = 0.
Proof.
  unfold healthLabel, stockLabel.
  repeat match goal with |- _ /\ _ => split end; try (vm_compute; reflexivity); intros H.
  - destruct (Z.leb_spec 70 p); [lia|]. destruct (Z.leb_spec 40 p); [lia|]. reflexivity.
  - destruct (Z.leb_spec 70 p); [lia|]. destruct (Z.leb_spec 40 p); [|lia]. reflexivity.
  - destruct (Z.leb_spec 70 p); [|lia]. reflexivity.
  - destruct (Z.leb_spec 50 p); [|lia]. reflexivity.
  - destruct (Z.leb_spec 50 p); [lia|]. reflexivity.
  - destruct (Z.leb_spec 70 p); [lia|]. destruct (Z.leb_spec 40 p); [|lia].
    destruct (Z.leb_spec 50 p); [lia|]. split; reflexivity.
Qed.

Lemma availability_labels_witness :
  40 <= 45 < 70 /\ healthLabel 45 = "Good".
Proof.
  split; [lia|].
  apply (availability_labels 45). lia.
Defined.

(* ================================================================== *)
(** * Further properties of the handlers *)

(** ** What each piece of data is changed by *)

(** X1.  The list of categories is only ever replaced as a whole by the
    answer to [GET /categories] that resolves with [success: true], and
    then it is the list of that answer; every other event (clicks, typing,
    submissions, archive, their answers, failed or unsuccessful fetches)
    leaves it as it is: nothing is inserted or removed locally. *)
Theorem categories_change_only_by_successful_fetch (s : State) (ev : Event) :
  categories (state_after (handle ev) s) = categories s \/
  exists body,
    ev = CategoriesSettled (Resolved body) /\
    categories_success body = true /\
    categories (state_after (handle ev) s) = categories_data body.
Proof.
  destruct ev as [ | | name value | | | c | id confirmed
                  | o | o | o | o | o ];
    try (left; reflexivity).
  - left. destruct s as [? ? ? ? ? ? [c|] ?]; reflexivity.
  - left. destruct confirmed; reflexivity.
  - left. destruct o as [[[|] d] | e]; reflexivity.
  - destruct o as [[[|] d] | e]; [right | left; reflexivity | left; reflexivity].
    eexists. repeat split.
  - left. destruct o as [[[|] m e] | e]; try reflexivity.
    run_handler. destruct (response_errors e) as [[|[f msgs] more]|]; reflexivity.
  - left. destruct o as [[[|] m e] | e]; try reflexivity.
    run_handler. destruct (response_errors e) as [[|[f msgs] more]|]; reflexivity.
  - left. destruct o as [[[|]] | e]; reflexivity.
Qed.

(** X2.  The dashboard statistics are only ever replaced by the answer to
    [GET /dashboard/summary] that resolves with [success: true], and the
    quick statistics only by mounting, which sets them to 2, 5 and 3. *)
Theorem statistics_change_only_by_their_fetch (s : State) (ev : Event) :
  (dashboardStats (state_after (handle ev) s) = dashboardStats s \/
   exists body,
     ev = SummarySettled (Resolved body) /\
     summary_success body = true /\
     dashboardStats (state_after (handle ev) s) = summary_data body) /\
  (quickStats (state_after (handle ev) s) = quickStats s \/
   ev = Mounted /\ quickStats (state_after (handle ev) s) = mkQuickStats 2 5 3).
Proof.
  destruct ev as [ | | name value | | | c | id confirmed
                  | o | o | o | o | o ];
    try (split; [left; reflexivity | first [left; reflexivity | right; split; reflexivity]]).
  - split; left; destruct s as [? ? ? ? ? ? [c|] ?]; reflexivity.
  - split; left; destruct confirmed; reflexivity.
  - destruct o as [[[|] d] | e]; split; try (left; reflexivity).
    right. eexists. repeat split.
  - split; left; destruct o as [[[|] d] | e]; reflexivity.
  - split; left; (destruct o as [[[|] m e] | e]; try reflexivity;
      run_handler; destruct (response_errors e) as [[|[f msgs] more]|]; reflexivity).
  - split; left; (destruct o as [[[|] m e] | e]; try reflexivity;
      run_handler; destruct (response_errors e) as [[|[f msgs] more]|]; reflexivity).
  - split; left; destruct o as [[[|]] | e]; reflexivity.
Qed.

(** X3.  The loading flag is raised by a form submission that issues a
    call, dropped by the answer to a create or update whatever that answer
    is (also when the [catch] block itself throws), and left as it is by
    every other event: fetches and archive never show "Saving...". *)
Theorem loading_flag_transitions (s : State) (ev : Event) :
  match ev with
  | FormSubmitted => isLoading (state_after (handle ev) s) = true
  | CreateSettled _ | UpdateSettled _ => isLoading (state_after (handle ev) s) = false
  | _ => isLoading (state_after (handle ev) s) = isLoading s
  end.
Proof.
  destruct ev as [ | | name value | | | c | id confirmed
                  | o | o | o | o | o ];
    try reflexivity.
  - destruct s as [? ? ? ? ? ? [c|] ?]; reflexivity.
  - destruct confirmed; reflexivity.
  - destruct o as [[[|] d] | e]; reflexivity.
  - destruct o as [[[|] d] | e]; reflexivity.
  - destruct o as [[[|] m e] | e]; try reflexivity.
    run_handler. destruct (response_errors e) as [[|[f msgs] more]|]; reflexivity.
  - destruct o as [[[|] m e] | e]; try reflexivity.
    run_handler. destruct (response_errors e) as [[|[f msgs] more]|]; reflexivity.
  - destruct o as [[[|]] | e]; reflexivity.
Qed.

(** ** Which calls are issued *)

(** X4.  An answer never triggers a write: the answers to the two fetches
    issue no call at all, and the answers to create, update and archive
    issue [GET] calls only, at most two.  So the calls that follow a user
    action stop after one round of re-fetching. *)
Theorem answers_issue_only_refetches (s : State) :
  (forall o, calls_of (handle (SummarySettled o)) s = []) /\
  (forall o, calls_of (handle (CategoriesSettled o)) s = []) /\
  (forall ev,
     match ev with
     | CreateSettled _ | UpdateSettled _ | ArchiveSettled _ =>
         forallb is_get (calls_of (handle ev) s) = true /\
         (length (calls_of (handle ev) s) <= 2)%nat
     | _ => True
     end).
Proof.
  split; [|split].
  - intros [[[|] d] | e]; reflexivity.
  - intros [[[|] d] | e]; reflexivity.
  - intros [ | | name value | | | c | id confirmed | o | o | o | o | o ]; try exact I.
    + destruct o as [[[|] m e] | e]; try (split; [reflexivity | simpl; lia]).
      run_handler. destruct (response_errors e) as [[|[f msgs] more]|];
        (split; [reflexivity | simpl; lia]).
    + destruct o as [[[|] m e] | e]; try (split; [reflexivity | simpl; lia]).
      run_handler. destruct (response_errors e) as [[|[f msgs] more]|];
        (split; [reflexivity | simpl; lia]).
    + destruct o as [[[|]] | e]; (split; [reflexivity | simpl; lia]).
Qed.

(** ** Answers in any order *)

Lemma run_cons (ev : Event) (rest : list Event) (s : State) :
  run (ev :: rest) s =
  (fst (run rest (state_after (handle ev) s)),
   (calls_of (handle ev) s ++ snd (run rest (state_after (handle ev) s)))%list).
Proof.
  unfold state_after, calls_of. simpl.
  destruct (handle ev s) as [[u s1] l1]. simpl.
  destruct (run rest s1) as [s2 l2]. reflexivity.
Qed.

(** X5.  Answers to the dashboard-summary fetch are applied in the order
    in which they settle, not in the order in which the calls were
    issued: after any sequence of them the statistics are those of the
    last answer that reported success (the stored ones if none did), and
    no call has been issued. *)
Theorem summary_answers_last_success_wins
  (os : list (Outcome SummaryBody)) (s : State) :
  dashboardStats (fst (run (map SummarySettled os) s))
    = last_successful_summary os (dashboardStats s) /\
  snd (run (map SummarySettled os) s) = [].
Proof.
  revert s. induction os as [|o os IH]; intros s.
  - split; reflexivity.
  - cbn [map]. rewrite run_cons. cbn [fst snd].
    destruct (IH (state_after (handle (SummarySettled o)) s)) as [IH1 IH2].
    rewrite IH1, IH2. split.
    + destruct o as [[[|] d] | e]; reflexivity.
    + destruct o as [[[|] d] | e]; reflexivity.
Qed.

(** X6.  The answers to the two fetches may settle in either order: the
    final state is the same whenever at least one of them resolves.  When
    both are rejected the message shown is that of the one that settled
    last. *)
Theorem fetch_answers_commute
  (s : State) (a : SummaryBody) (b : CategoriesBody) (e1 e2 : AxiosError) :
  run [SummarySettled (Resolved a); CategoriesSettled (Resolved b)] s
    = run [CategoriesSettled (Resolved b); SummarySettled (Resolved a)] s /\
  run [SummarySettled (Rejected e1); CategoriesSettled (Resolved b)] s
    = run [CategoriesSettled (Resolved b); SummarySettled (Rejected e1)] s /\
  run [SummarySettled (Resolved a); CategoriesSettled (Rejected e2)] s
    = run [CategoriesSettled (Rejected e2); SummarySettled (Resolved a)] s /\
  error (fst (run [SummarySettled (Rejected e1); CategoriesSettled (Rejected e2)] s))
    = "Failed to fetch categories" /\
  error (fst (run [CategoriesSettled (Rejected e2); SummarySettled (Rejected e1)] s))
    = "Failed to fetch dashboard data".
Proof.
  destruct a as [[|] da], b as [[|] db]; repeat split.
Qed.

(** X7.  Loading the page: from the initial state, mounting issues
    [GET /dashboard/summary] and [GET /categories], and once both have
    resolved with success, in either order, the state holds exactly the
    statistics and the categories of the answers, the quick statistics
    2, 5 and 3, no error, and the form is hidden and empty. *)
Theorem page_load (stats : DashboardStats) (cats : list Category.t) :
  let loaded :=
    mkState cats stats (mkQuickStats 2 5 3) false "" false None FormData.empty in
  run [Mounted;
       SummarySettled (Resolved (mkSummaryBody true stats));
       CategoriesSettled (Resolved (mkCategoriesBody true cats))] initialState
    = (loaded, [Get url_summary; Get url_categories]) /\
  run [Mounted;
       CategoriesSettled (Resolved (mkCategoriesBody true cats));
       SummarySettled (Resolved (mkSummaryBody true stats))] initialState
    = (loaded, [Get url_summary; Get url_categories]).
Proof. split; reflexivity. Qed.

(** ** A rejected submission with an empty errors object *)

(** X8.  When a create or update is rejected with a response whose
    [errors] is an object without any property, the [catch] block throws
    while reading the first message: the handler ends with that exception,
    no text is surfaced (the error slot keeps the empty string set when
    the submission started), the loading flag is still dropped by
    [finally], the form stays as it is and no call is issued. *)
Theorem empty_errors_object_surfaces_nothing
  (create : bool) (s : State) (err : AxiosError)
  (Hempty : response_errors err = Some []) :
  let handler := if create then handleCreateCategory else handleUpdateCategory in
  let resume := if create then handleCreateCategory_resume else handleUpdateCategory_resume in
  result_of (resume (Rejected err)) s = Threw "TypeError" /\
  error (state_after (resume (Rejected err)) s) = error s /\
  isLoading (state_after (resume (Rejected err)) s) = false /\
  same_data_and_form s (state_after (resume (Rejected err)) s) /\
  calls_of (resume (Rejected err)) s = [] /\
  (create = true \/ editingCategory s <> None ->
   error (state_after (handler (Rejected err)) s) = "" /\
   errorBox (state_after (handler (Rejected err)) s) = None).
Proof.
  destruct create; cbv zeta.
  - run_handler. rewrite Hempty. unfold same_data_and_form. cbn.
    repeat split. unfold errorBox. cbn. destruct (showForm s); reflexivity.
  - repeat split;
      try (run_handler; rewrite Hempty; reflexivity).
    + destruct H as [H | H]; [discriminate|].
      destruct s as [? ? ? ? ? ? [c|] ?]; [|contradiction].
      run_handler. rewrite Hempty. reflexivity.
    + destruct H as [H | H]; [discriminate|].
      destruct s as [? ? ? ? ? ? [c|] ?]; [|contradiction].
      unfold errorBox. run_handler. rewrite Hempty. cbn.
      destruct showForm0; reflexivity.
Qed.

Lemma empty_errors_object_witness :
  response_errors (http_error (Some "Unprocessable") (Some [])) = Some [] /\
  result_of (handleCreateCategory_resume
               (Rejected (http_error (Some "Unprocessable") (Some [])))) sample_state
    = Threw "TypeError".
Proof.
  split; [reflexivity|].
  apply (empty_errors_object_surfaces_nothing true sample_state
           (http_error (Some "Unprocessable") (Some [])) eq_refl).
Defined.

(** ** The form: what is shown and what a submission sends *)

(** X9.  The heading of the form tells which call a submission issues:
    under "Edit Category" exactly one POST goes to the update URL of the
    category being edited, under "Create New Category" exactly one POST
    goes to [/create/categories]; both carry the fields of the form with
    the editor defaulted.  After the submission the button reads
    "Saving..." and no error is shown. *)
Theorem heading_tells_the_call (s : State) (Hshown : showForm s = true) :
  ((exists c,
      editingCategory s = Some c /\
      formHeading s = Some "Edit Category" /\
      calls_of (handle FormSubmitted) s =
        [Post (url_update (Category.category_id c)) (Some (request_body (formData s)))]) \/
   (editingCategory s = None /\
    formHeading s = Some "Create New Category" /\
    calls_of (handle FormSubmitted) s =
      [Post url_create (Some (request_body (formData s)))])) /\
  submitLabel (state_after (handle FormSubmitted) s) = Some "Saving..." /\
  errorBox (state_after (handle FormSubmitted) s) = None /\
  formData (state_after (handle FormSubmitted) s) = formData s.
Proof.
  destruct s as [cs ds qs l e sf [c|] f]; cbn in Hshown; subst sf.
  - split; [left; exists c; repeat split | repeat split].
  - split; [right; repeat split | repeat split].
Qed.

Lemma heading_tells_the_call_witness :
  showForm sample_state = true /\
  submitLabel (state_after (handle FormSubmitted) sample_state) = Some "Saving...".
Proof.
  split; [reflexivity|].
  apply (heading_tells_the_call sample_state eq_refl).
Defined.

(** X10.  "Add Category" only shows the form: it changes neither the
    fields nor the editing target.  Pressed while a category is being
    edited it leaves the form in edit mode, and a submission then still
    updates that category. *)
Theorem add_category_does_not_leave_edit_mode (s : State) (c : Category.t) :
  formData (state_after (handle AddCategoryClicked) s) = formData s /\
  editingCategory (state_after (handle AddCategoryClicked) s) = editingCategory s /\
  showForm (state_after (handle AddCategoryClicked) s) = true /\
  formHeading (fst (run [EditClicked c; AddCategoryClicked] s)) = Some "Edit Category" /\
  snd (run [EditClicked c; AddCategoryClicked; FormSubmitted] s) =
    [Post (url_update (Category.category_id c))
          (Some (FormData.mk (Category.category_name c)
                             (Category.category_description c)
                             (JS.or_else (JS.opt_or_else (Category.who_edited c) "") "Admin")))].
Proof. repeat split. Qed.

(** X11.  Saving an edit without touching the form sends the category's
    own name and description to its own update URL; the editor sent is the
    category's editor, or "Admin" when the category has none or an empty
    one. *)
Theorem unchanged_edit_resends_category (s : State) (c : Category.t) :
  exists body,
    snd (run [EditClicked c; FormSubmitted] s) =
      [Post (url_update (Category.category_id c)) (Some body)] /\
    FormData.category_name body = Category.category_name c /\
    FormData.category_description body = Category.category_description c /\
    FormData.who_edited body =
      match Category.who_edited c with
      | Some editor => if String.eqb editor "" then "Admin" else editor
      | None => "Admin"
      end.
Proof.
  eexists. split; [reflexivity|]. cbn. repeat split.
  destruct (Category.who_edited c) as [editor|]; [|reflexivity].
  unfold JS.opt_or_else, JS.or_else.
  destruct (String.eqb_spec editor ""); [reflexivity|].
  destruct (String.eqb_spec editor ""); [contradiction | reflexivity].
Qed.

(** X12.  Starting an edit while another one is open replaces the target
    and the fields: the state is the one [startEdit] of the second
    category alone would give, and a submission then updates the second
    category with its own data; nothing of the first one is sent. *)
Theorem start_edit_replaces_target (s : State) (c1 c2 : Category.t) :
  state_after (startEdit c2) (state_after (startEdit c1) s) = state_after (startEdit c2) s /\
  snd (run [EditClicked c1; EditClicked c2; FormSubmitted] s) =
    [Post (url_update (Category.category_id c2))
          (Some (FormData.mk (Category.category_name c2)
                             (Category.category_description c2)
                             (JS.or_else (JS.opt_or_else (Category.who_edited c2) "") "Admin")))].
Proof. split; reflexivity. Qed.

(** X13.  Typing in an input changes the field of that input and nothing
    else: the field then holds the text typed, the two other fields and
    the rest of the state are as before, and no call is issued.  In create
    mode the name typed is the name a submission sends. *)
Theorem typing_changes_one_field (s : State) (name : FormData.field) (value : string) :
  form_field name (formData (state_after (handle (InputChanged name value)) s)) = value /\
  (forall other, other <> name ->
     form_field other (formData (state_after (handle (InputChanged name value)) s))
       = form_field other (formData s)) /\
  (let s' := state_after (handle (InputChanged name value)) s in
   categories s' = categories s /\ dashboardStats s' = dashboardStats s /\
   quickStats s' = quickStats s /\ isLoading s' = isLoading s /\
   error s' = error s /\ showForm s' = showForm s /\
   editingCategory s' = editingCategory s) /\
  calls_of (handle (InputChanged name value)) s = [] /\
  (editingCategory s = None ->
   exists body,
     snd (run [InputChanged FormData.f_category_name value; FormSubmitted] s)
       = [Post url_create (Some body)] /\
     FormData.category_name body = value).
Proof.
  split; [destruct name; reflexivity|].
  split; [intros other Hne; destruct name, other; try reflexivity; contradiction|].
  split; [repeat split|].
  split; [reflexivity|].
  intros Hnone. destruct s as [cs ds qs l e sf ed f]. cbn in Hnone. subst ed.
  eexists. split; reflexivity.
Qed.

Lemma typing_changes_one_field_witness :
  FormData.f_category_description <> FormData.f_category_name /\
  form_field FormData.f_category_description
    (formData (state_after (handle (InputChanged FormData.f_category_name "Poetry"))
                           sample_state))
  = "Novels".
Proof.
  split; [discriminate|].
  apply (typing_changes_one_field sample_state FormData.f_category_name "Poetry").
  discriminate.
Defined.

(** X14.  While a submission is awaited the form cannot be submitted
    again: a submission that the page allows raises the loading flag,
    which disables the inputs, the submit button and Cancel until the
    answer settles.  After an answer that is not a success the form is
    enabled again with the same fields, so the same submission can be
    retried. *)
Theorem submission_is_gated_until_settled
  (s : State) (o : Outcome MutationBody)
  (Hallowed : enabled s FormSubmitted = true)
  (Hfail : match o with
           | Resolved response => success response = false
           | Rejected _ => True
           end) :
  let pending := state_after (handle FormSubmitted) s in
  enabled pending FormSubmitted = false /\
  enabled pending CancelClicked = false /\
  (forall name value, enabled pending (InputChanged name value) = false) /\
  (forall settled,
     settled = state_after (handle (CreateSettled o)) pending \/
     settled = state_after (handle (UpdateSettled o)) pending ->
     enabled settled FormSubmitted = true /\ formData settled = formData s).
Proof.
  destruct s as [cs ds qs l e sf ed f]. unfold enabled in Hallowed. cbn in Hallowed.
  destruct sf; [|discriminate]. destruct l; [discriminate|]. cbn in Hallowed.
  cbv zeta. split; [|split; [|split]].
  - destruct ed; reflexivity.
  - destruct ed; reflexivity.
  - intros name value. destruct ed; reflexivity.
  - intros settled [-> | ->].
    + destruct o as [[[|] m errs] | err]; [discriminate Hfail | |].
      * destruct ed; cbn; rewrite Hallowed; split; reflexivity.
      * destruct ed; run_handler; destruct (response_errors err) as [[|[fd msgs] more]|];
          cbn; rewrite Hallowed; split; reflexivity.
    + destruct o as [[[|] m errs] | err]; [discriminate Hfail | |].
      * destruct ed; cbn; rewrite Hallowed; split; reflexivity.
      * destruct ed; run_handler; destruct (response_errors err) as [[|[fd msgs] more]|];
          cbn; rewrite Hallowed; split; reflexivity.
Qed.

Lemma submission_is_gated_witness :
  enabled sample_state FormSubmitted = true /\
  enabled (state_after (handle FormSubmitted) sample_state) FormSubmitted = false.
Proof.
  split; [reflexivity|].
  apply (submission_is_gated_until_settled sample_state (Rejected network_error) eq_refl I).
Defined.

(** X15.  Archiving has no such gate: the delete button of a listed
    category stays enabled after a confirmed click, because the list is
    not touched until it is fetched again, and a second confirmed click
    issues the same archive call a second time. *)
Theorem archive_can_be_issued_twice
  (s : State) (id : Z) (Hlisted : enabled s (DeleteClicked id true) = true) :
  all_enabled [DeleteClicked id true; DeleteClicked id true] s = true /\
  run [DeleteClicked id true; DeleteClicked id true] s =
    (s, [Post (url_archive id) None; Post (url_archive id) None]).
Proof.
  split.
  - cbn [all_enabled]. rewrite Hlisted. cbn. cbn in Hlisted. rewrite Hlisted. reflexivity.
  - reflexivity.
Qed.

Lemma archive_can_be_issued_twice_witness :
  enabled sample_state (DeleteClicked 7 true) = true /\
  run [DeleteClicked 7 true; DeleteClicked 7 true] sample_state =
    (sample_state, [Post "/archive/categories/7" None; Post "/archive/categories/7" None]).
Proof.
  split; [reflexivity|].
  apply (archive_can_be_issued_twice sample_state 7). reflexivity.
Defined.

(** ** Where an error is shown *)

(** X16.  The error text is rendered inside the form only.  A fetch or an
    archive that is rejected while the form is hidden shows nothing, and
    its text then appears in the form as soon as the form is opened with
    "Add Category" or with an edit button. *)
Theorem error_of_hidden_form_shows_on_opening
  (s : State) (err : AxiosError) (c : Category.t) (Hhidden : showForm s = false) :
  errorBox (state_after (handle (ArchiveSettled (Rejected err))) s) = None /\
  errorBox (state_after (handle (SummarySettled (Rejected err))) s) = None /\
  errorBox (state_after (handle (CategoriesSettled (Rejected err))) s) = None /\
  errorBox (fst (run [ArchiveSettled (Rejected err); AddCategoryClicked] s))
    = Some "Failed to delete category" /\
  errorBox (fst (run [CategoriesSettled (Rejected err); EditClicked c] s))
    = Some "Failed to fetch categories" /\
  errorBox (fst (run [SummarySettled (Rejected err); AddCategoryClicked] s))
    = Some "Failed to fetch dashboard data".
Proof.
  destruct s as [cs ds qs l e sf ed f]. cbn in Hhidden. subst sf.
  repeat split.
Qed.

Lemma error_of_hidden_form_witness :
  showForm initialState = false /\
  errorBox (fst (run [ArchiveSettled (Rejected network_error); AddCategoryClicked] initialState))
    = Some "Failed to delete category".
Proof.
  split; [reflexivity|].
  apply (error_of_hidden_form_shows_on_opening initialState network_error sample_category eq_refl).
Defined.

(** ** An invariant of the page *)

(** What holds of the form in every state the page can be in. *)
Lemma form_invariant_step (s : State) (ev : Event) :
  enabled s ev = true ->
  (showForm s = false -> formData s = FormData.empty /\ editingCategory s = None) ->
  (isLoading s = true -> showForm s = true) ->
  (showForm (state_after (handle ev) s) = false ->
     formData (state_after (handle ev) s) = FormData.empty /\
     editingCategory (state_after (handle ev) s) = None) /\
  (isLoading (state_after (handle ev) s) = true ->
     showForm (state_after (handle ev) s) = true).
Proof.
  intros Hen H1 H2.
  destruct s as [cs ds qs l e sf ed f]. cbn in H1, H2.
  destruct ev as [ | | name value | | | c | id confirmed
                  | o | o | o | o | o ]; cbn in Hen.
  - split; [exact H1 | exact H2].
  - split; [discriminate | reflexivity].
  - destruct sf; [|discriminate]. split; [discriminate | reflexivity].
  - destruct sf; [|discriminate]. split; [destruct ed; discriminate | destruct ed; reflexivity].
  - destruct sf; [|discriminate]. destruct l; [discriminate|].
    split; [intros _; split; reflexivity | discriminate].
  - split; [discriminate | reflexivity].
  - destruct confirmed; split; assumption.
  - destruct o as [[[|] d] | err]; split; assumption.
  - destruct o as [[[|] d] | err]; split; assumption.
  - destruct o as [[[|] m errs] | err].
    + split; [intros _; split; reflexivity | discriminate].
    + split; [exact H1 | discriminate].
    + run_handler. destruct (response_errors err) as [[|[fd msgs] more]|];
        (split; [exact H1 | discriminate]).
  - destruct o as [[[|] m errs] | err].
    + split; [intros _; split; reflexivity | discriminate].
    + split; [exact H1 | discriminate].
    + run_handler. destruct (response_errors err) as [[|[fd msgs] more]|];
        (split; [exact H1 | discriminate]).
  - destruct o as [[[|]] | err]; split; assumption.
Qed.

Lemma form_invariant_run (evs : list Event) (s : State) :
  all_enabled evs s = true ->
  (showForm s = false -> formData s = FormData.empty /\ editingCategory s = None) ->
  (isLoading s = true -> showForm s = true) ->
  (showForm (fst (run evs s)) = false ->
     formData (fst (run evs s)) = FormData.empty /\
     editingCategory (fst (run evs s)) = None) /\
  (isLoading (fst (run evs s)) = true -> showForm (fst (run evs s)) = true).
Proof.
  revert s. induction evs as [|ev rest IH]; intros s Hen H1 H2.
  - split; assumption.
  - cbn [all_enabled] in Hen. apply andb_prop in Hen. destruct Hen as [Hev Hrest].
    rewrite run_cons. cbn [fst].
    destruct (form_invariant_step s ev Hev H1 H2) as [H1' H2'].
    apply IH; assumption.
Qed.

(** X17.  In every state reached from the initial one by events the page
    allows, a hidden form is empty and has no editing target, and the
    loading flag is raised only while the form is shown. *)
Theorem hidden_form_is_empty
  (evs : list Event) (Hallowed : all_enabled evs initialState = true) :
  let s := fst (run evs initialState) in
  (showForm s = false -> formData s = FormData.empty /\ editingCategory s = None) /\
  (isLoading s = true -> showForm s = true).
Proof.
  cbv zeta.
  apply form_invariant_run;
    [exact Hallowed | intros _; split; reflexivity | discriminate].
Qed.

Lemma hidden_form_is_empty_witness :
  all_enabled [Mounted; AddCategoryClicked;
               InputChanged FormData.f_category_name "Poetry"; CancelClicked] initialState = true /\
  (showForm (fst (run [Mounted; AddCategoryClicked;
                       InputChanged FormData.f_category_name "Poetry"; CancelClicked]
                      initialState)) = false ->
   formData (fst (run [Mounted; AddCategoryClicked;
                       InputChanged FormData.f_category_name "Poetry"; CancelClicked]
                      initialState)) = FormData.empty /\
   editingCategory (fst (run [Mounted; AddCategoryClicked;
                              InputChanged FormData.f_category_name "Poetry"; CancelClicked]
                             initialState)) = None).
Proof.
  split; [reflexivity|].
  apply (hidden_form_is_empty
           [Mounted; AddCategoryClicked;
            InputChanged FormData.f_category_name "Poetry"; CancelClicked] eq_refl).
Defined.

(** X18.  So "Add Category", pressed while the form is hidden, always
    opens an empty form in create mode: the heading is
    "Create New Category", the button reads "Create Category" (no
    submission can be awaited while the form is hidden), the three fields
    are empty, and a submission would go to [/create/categories]. *)
Theorem add_category_opens_empty_create_form
  (evs : list Event) (Hallowed : all_enabled evs initialState = true)
  (Hhidden : showForm (fst (run evs initialState)) = false) :
  let opened := state_after (handle AddCategoryClicked) (fst (run evs initialState)) in
  formHeading opened = Some "Create New Category" /\
  submitLabel opened = Some "Create Category" /\
  formData opened = FormData.empty /\
  calls_of (handle FormSubmitted) opened =
    [Post url_create (Some (FormData.mk "" "" "Admin"))].
Proof.
  destruct (form_invariant_run evs initialState Hallowed) as [H1 H2];
    [intros _; split; reflexivity | discriminate |].
  destruct (H1 Hhidden) as [Hf He].
  destruct (fst (run evs initialState)) as [cs ds qs l e sf ed f].
  cbn in Hhidden, Hf, He, H2. subst sf ed f.
  destruct l; [discriminate (H2 eq_refl)|].
  repeat split.
Qed.

Lemma add_category_opens_empty_create_form_witness :
  all_enabled [Mounted; AddCategoryClicked; CancelClicked] initialState = true /\
  showForm (fst (run [Mounted; AddCategoryClicked; CancelClicked] initialState)) = false /\
  formHeading (state_after (handle AddCategoryClicked)
                 (fst (run [Mounted; AddCategoryClicked; CancelClicked] initialState)))
    = Some "Create New Category".
Proof.
  split; [reflexivity|]. split; [reflexivity|].
  apply (add_category_opens_empty_create_form
           [Mounted; AddCategoryClicked; CancelClicked] eq_refl eq_refl).
Defined.

(** ** The URLs of the calls *)





(* ================================================================== *)
(** * Further properties of the metrics *)

Lemma round_half_up_facts (n d : Z) :
  0 < d ->
  2 * n + d = 2 * d * round_half_up n d + (2 * n + d) mod (2 * d) /\
  0 <= (2 * n + d) mod (2 * d) < 2 * d.
Proof.
  intros Hd. unfold round_half_up. split.
  - apply Z.div_mod. lia.
  - apply Z.mod_pos_bound. lia.
Qed.

(** The percentage of a whole multiple is exact. *)
Lemma round_percent_multiple (k t : Z) :
  0 <= k -> 0 < t < 2 ^ 53 -> k * t <= 2 ^ 44 ->
  round_percent (k * t) t = Some (100 * k).
Proof.
  intros Hk Ht Hb.
  destruct (round_percent_spec (k * t) t) as (z & Ez & Hn & _); [nia | exact Ht |].
  destruct (round_half_up_facts (100 * (k * t)) t) as [Hdm Hr]; [lia|].
  assert (Hs : round_half_up (100 * (k * t)) t = 100 * k /\
               (2 * (100 * (k * t)) + t) mod (2 * t) = t).
  { set (q := round_half_up (100 * (k * t)) t) in *.
    set (r := (2 * (100 * (k * t)) + t) mod (2 * t)) in *.
    assert (q = 100 * k) by nia. split; [assumption | nia]. }
  destruct Hs as [Hs Hm].
  rewrite Ez. f_equal. rewrite <- Hs. apply Hn.
  unfold half_way. rewrite Hm. lia.
Qed.

(** More of the same total never gives a smaller percentage. *)
Lemma round_percent_monotone (a a' t p p' : Z) :
  0 <= a <= a' -> a' <= 2 ^ 44 -> 0 < t < 2 ^ 53 ->
  round_percent a t = Some p -> round_percent a' t = Some p' -> p <= p'.
Proof.
  intros Ha Ha' Ht Ep Ep'.
  destruct (Z.eq_dec a a') as [-> | Hne]; [rewrite Ep in Ep'; injection Ep' as ->; lia|].
  destruct (round_percent_spec a t) as (z & Ez & Hn & Hh); [lia | exact Ht |].
  destruct (round_percent_spec a' t) as (z' & Ez' & Hn' & Hh'); [lia | exact Ht |].
  rewrite Ep in Ez. injection Ez as <-. rewrite Ep' in Ez'. injection Ez' as <-.
  destruct (round_half_up_facts (100 * a) t) as [Hdm Hr]; [lia|].
  destruct (round_half_up_facts (100 * a') t) as [Hdm' Hr']; [lia|].
  unfold half_way in *.
  set (q := round_half_up (100 * a) t) in *.
  set (q' := round_half_up (100 * a') t) in *.
  set (r := (2 * (100 * a) + t) mod (2 * t)) in *.
  set (r' := (2 * (100 * a') + t) mod (2 * t)) in *.
  assert (Hp : p <= q).
  { destruct (Z.eq_dec r 0) as [E | E]; [destruct (Hh E); lia | rewrite (Hn E); lia]. }
  destruct (Z.eq_dec r' 0) as [E' | E'].
  - assert (q <= q' - 1) by nia. destruct (Hh' E'); lia.
  - rewrite (Hn' E'). assert (q <= q') by nia. lia.
Qed.

(** X20.  With no more books available than there are, the availability
    percentage lies between 0 and 100, so the bar drawn with it never
    overflows: it is 0 when no book is available and 100 when all are
    (counts as in C6: total below [2 ^ 53], available at most [2 ^ 44]). *)
Theorem availability_between_0_and_100
  (s : DashboardStats)
  (Htotal : 0 <= total_books s < 2 ^ 53)
  (Havailable : 0 <= available_books s <= total_books s)
  (Hsize : available_books s <= 2 ^ 44) :
  exists p,
    availabilityPercentage s = Some p /\
    0 <= p <= 100 /\
    (available_books s = 0 -> p = 0) /\
    (0 < total_books s -> available_books s = total_books s -> p = 100).
Proof.
  rewrite availabilityPercentage_unfold.
  destruct (Z.ltb_spec 0 (total_books s)) as [Hpos | Hzero].
  - pose proof (round_percent_multiple 0 (total_books s)) as H0.
    pose proof (round_percent_multiple 1 (total_books s)) as H1.
    rewrite Z.mul_0_l in H0. rewrite Z.mul_1_l in H1. cbn in H0.
    specialize (H0 ltac:(lia) ltac:(lia) ltac:(lia)).
    destruct (round_percent_spec (available_books s) (total_books s))
      as (p & Ep & _ & _); [lia | lia |].
    exists p. split; [exact Ep|].
    pose proof (round_percent_monotone 0 (available_books s) (total_books s) 0 p
                  ltac:(lia) Hsize ltac:(lia) H0 Ep) as Hlow.
    assert (Hhigh : p <= 100).
    { destruct (Z.le_gt_cases (total_books s) (2 ^ 44)) as [Hsmall | Hbig].
      - specialize (H1 ltac:(lia) ltac:(lia) Hsmall).
        apply (round_percent_monotone (available_books s) (total_books s) (total_books s) p 100);
          try lia; assumption.
      - destruct (round_percent_spec (available_books s) (total_books s))
          as (z & Ez & _ & Hz); [lia | lia |].
        rewrite Ep in Ez. injection Ez as <-.
        destruct (round_half_up_facts (100 * available_books s) (total_books s)) as [Hdm Hr];
          [lia|].
        set (q := round_half_up (100 * available_books s) (total_books s)) in *.
        assert (q <= 100) by nia.
        destruct (half_way_dec (100 * available_books s) (total_books s)) as [Hw | Hw].
        + destruct (Hz Hw); lia.
        + destruct (round_percent_spec (available_books s) (total_books s))
            as (z & Ez & Hn & _); [lia | lia |].
          rewrite Ep in Ez. injection Ez as <-. rewrite (Hn Hw). fold q. lia. }
    split; [lia|]. split.
    + intros E. rewrite E in Ep. rewrite H0 in Ep. injection Ep as <-. reflexivity.
    + intros _ E. rewrite E in Ep. rewrite H1 in Ep by lia. injection Ep as <-. reflexivity.
  - exists 0. repeat split; lia.
Qed.

Lemma availability_between_0_and_100_witness :
  0 <= total_books (mkDashboardStats 40 23 0 0) < 2 ^ 53 /\
  0 <= available_books (mkDashboardStats 40 23 0 0) <= total_books (mkDashboardStats 40 23 0 0) /\
  available_books (mkDashboardStats 40 23 0 0) <= 2 ^ 44 /\
  exists p, availabilityPercentage (mkDashboardStats 40 23 0 0) = Some p /\ 0 <= p <= 100.
Proof.
  assert (H1 : 0 <= total_books (mkDashboardStats 40 23 0 0) < 2 ^ 53) by (simpl; lia).
  assert (H2 : 0 <= available_books (mkDashboardStats 40 23 0 0)
               <= total_books (mkDashboardStats 40 23 0 0)) by (simpl; lia).
  assert (H3 : available_books (mkDashboardStats 40 23 0 0) <= 2 ^ 44) by (simpl; lia).
  split; [exact H1|]. split; [exact H2|]. split; [exact H3|].
  destruct (availability_between_0_and_100 (mkDashboardStats 40 23 0 0) H1 H2 H3)
    as (p & Ep & Hp & _).
  exists p. split; assumption.
Defined.

(** X21.  For a fixed total, more available books never give a smaller
    availability percentage (counts as in C6). *)
Theorem availability_is_monotone
  (s s' : DashboardStats) (p p' : Z)
  (Htotal : 0 < total_books s < 2 ^ 53)
  (Hsame : total_books s' = total_books s)
  (Hmore : 0 <= available_books s <= available_books s')
  (Hsize : available_books s' <= 2 ^ 44)
  (Hp : availabilityPercentage s = Some p)
  (Hp' : availabilityPercentage s' = Some p') :
  p <= p'.
Proof.
  rewrite availabilityPercentage_unfold in Hp, Hp'. rewrite Hsame in Hp'.
  destruct (Z.ltb_spec 0 (total_books s)) as [_ | Hzero]; [|lia].
  apply (round_percent_monotone (available_books s) (available_books s') (total_books s));
    assumption.
Qed.

Lemma availability_is_monotone_witness :
  availabilityPercentage (mkDashboardStats 40 22 0 0) = Some 55 /\
  availabilityPercentage (mkDashboardStats 40 23 0 0) = Some 57 /\
  55 <= 57.
Proof.
  assert (H1 : availabilityPercentage (mkDashboardStats 40 22 0 0) = Some 55)
    by (vm_compute; reflexivity).
  assert (H2 : availabilityPercentage (mkDashboardStats 40 23 0 0) = Some 57)
    by (vm_compute; reflexivity).
  split; [exact H1|]. split; [exact H2|].
  apply (availability_is_monotone (mkDashboardStats 40 22 0 0) (mkDashboardStats 40 23 0 0)
           55 57);
    (assumption || reflexivity || (simpl; lia)).
Defined.



(** X23.  With no books at all (or a total that is not positive) the
    usage rate divides by 1 instead: it is exactly 100 times the number of
    transactions, and in particular 0 when there are none
    (transactions at most [2 ^ 44]). *)
Theorem usage_rate_without_books
  (s : DashboardStats)
  (Hnone : total_books s <= 0)
  (Htransactions : 0 <= total_transactions s <= 2 ^ 44) :
  usageRate s = Some (100 * total_transactions s).
Proof.
  rewrite usageRate_unfold. replace (Z.max (total_books s) 1) with 1 by lia.
  pose proof (round_percent_multiple (total_transactions s) 1) as H.
  rewrite Z.mul_1_r in H. apply H; [lia | simpl; lia | lia].
Qed.

Lemma usage_rate_without_books_witness :
  total_books (mkDashboardStats 0 0 0 7) <= 0 /\
  0 <= total_transactions (mkDashboardStats 0 0 0 7) <= 2 ^ 44 /\
  usageRate (mkDashboardStats 0 0 0 7) = Some (100 * 7).
Proof.
  assert (H1 : total_books (mkDashboardStats 0 0 0 7) <= 0) by (simpl; lia).
  assert (H2 : 0 <= total_transactions (mkDashboardStats 0 0 0 7) <= 2 ^ 44) by (simpl; lia).
  split; [exact H1|]. split; [exact H2|].
  apply (usage_rate_without_books (mkDashboardStats 0 0 0 7) H1 H2).
Defined.



(* ================================================================== *)
(** * A write and its re-fetches, end to end *)

(** X25.  A create that succeeds: the submission in create mode, its
    success answer and the answers to the two fetches it triggers leave
    the categories and the statistics of those answers in the state, the
    form hidden and empty, no error and no loading flag; the calls issued
    are the POST and then the two GETs, and nothing else. *)
Theorem create_then_refetch
  (s : State) (cats : list Category.t) (stats : DashboardStats) (msg : option string)
  (Hcreate : editingCategory s = None) :
  run [FormSubmitted;
       CreateSettled (Resolved (mkMutationBody true msg None));
       CategoriesSettled (Resolved (mkCategoriesBody true cats));
       SummarySettled (Resolved (mkSummaryBody true stats))] s
  = (mkState cats stats (quickStats s) false "" false None FormData.empty,
     [Post url_create (Some (request_body (formData s)));
      Get url_categories; Get url_summary]).
Proof.
  destruct s as [cs ds qs l e sf ed f]. cbn in Hcreate. subst ed. reflexivity.
Qed.

Lemma create_then_refetch_witness :
  editingCategory initialState = None /\
  fst (run [FormSubmitted;
            CreateSettled (Resolved (mkMutationBody true None None));
            CategoriesSettled (Resolved (mkCategoriesBody true [sample_category]));
            SummarySettled (Resolved (mkSummaryBody true (mkDashboardStats 1 1 0 0)))]
           initialState)
  = mkState [sample_category] (mkDashboardStats 1 1 0 0) (mkQuickStats 0 0 0)
            false "" false None FormData.empty.
Proof.
  split; [reflexivity|].
  pose proof (create_then_refetch initialState [sample_category] (mkDashboardStats 1 1 0 0)
                None eq_refl) as H.
  rewrite H. reflexivity.
Defined.

(** X26.  An archive that succeeds: the archived category stays in the
    list after the click and after the success answer, and leaves it only
    when the list fetched again arrives; the state changes in nothing but
    the categories and the statistics of the two answers. *)
Theorem archive_then_refetch
  (s : State) (id : Z) (cats : list Category.t) (stats : DashboardStats) :
  categories (fst (run [DeleteClicked id true;
                        ArchiveSettled (Resolved (mkArchiveBody true))] s))
    = categories s /\
  run [DeleteClicked id true;
       ArchiveSettled (Resolved (mkArchiveBody true));
       CategoriesSettled (Resolved (mkCategoriesBody true cats));
       SummarySettled (Resolved (mkSummaryBody true stats))] s
  = (mkState cats stats (quickStats s) (isLoading s) (error s) (showForm s)
             (editingCategory s) (formData s),
     [Post (url_archive id) None; Get url_categories; Get url_summary]).
Proof. destruct s; split; reflexivity. Qed.
